(** * schola: the publication aggregation and enrichment pipeline

    A shallow embedding of [fetch_author_publications.py] and of the
    [/results] route of [app.py], with the properties of the pipeline
    stated and proved over it.

    - A publication is a Python [dict] with [str] keys: a [gmap string pyval].
      The list handed from stage to stage holds one fresh dict per record
      (line 142), and every in-place update is a function of the updated
      dict alone, so the list of dicts is threaded explicitly.
    - The remote services (Entrez esearch/efetch, iCite) are an environment
      of oracles; an oracle answer is either data or a raised exception.
    - Python builtins on numbers ([float], [int], [/], [+]) are an interface,
      [PyNum]; the theorems hold for every implementation of it. *)

From Stdlib Require Import Ascii Floats Uint63 OrderedTypeEx.
From stdpp Require Import gmap strings list pretty sorting.

Open Scope string_scope.

(** ** Python [str] methods, on ASCII

    A [string] is the byte sequence of the text. Whitespace and letter case
    are the ASCII ones; the Unicode spaces and letters Python also knows
    are left as ordinary characters. *)

(** The ASCII characters [str.split] and [str.strip] treat as whitespace:
    tab to carriage return, the four separators 28-31, and the space. *)
Definition is_space (c : ascii) : bool :=
  let n := nat_of_ascii c in
  ((9 <=? n) && (n <=? 13) || (28 <=? n) && (n <=? 32))%nat.

(** [s.split()] *)
Fixpoint split_from (word s : string) : list string :=
  match s with
  | EmptyString => if word is EmptyString then [] else [word]
  | String c s' =>
      if is_space c then
        if word is EmptyString then split_from "" s' else word :: split_from "" s'
      else split_from (word +:+ String c "") s'
  end.

Definition split (s : string) : list string := split_from "" s.

(** [s.strip()] *)
Fixpoint lstrip (s : string) : string :=
  match s with
  | String c s' => if is_space c then lstrip s' else s
  | EmptyString => ""
  end.

Fixpoint rstrip (s : string) : string :=
  match s with
  | EmptyString => ""
  | String c s' =>
      match rstrip s' with
      | EmptyString => if is_space c then "" else String c ""
      | r => String c r
      end
  end.

Definition strip (s : string) : string := rstrip (lstrip s).

(** [s.upper()] *)
Definition upper_char (c : ascii) : ascii :=
  let n := nat_of_ascii c in
  if ((97 <=? n) && (n <=? 122))%nat then ascii_of_nat (n - 32) else c.

Fixpoint upper (s : string) : string :=
  match s with
  | EmptyString => ""
  | String c s' => String (upper_char c) (upper s')
  end.

(** [sep.join(l)] *)
Definition join (sep : string) (l : list string) : string := String.concat sep l.

(** The double quote character. *)
Definition dquote : string := String "034"%char "".

(** [l[i:i+size] for i in range(0, len(l), size)] *)
Fixpoint chunks_from {A} (fuel size : nat) (l : list A) : list (list A) :=
  match fuel, l with
  | S fuel', _ :: _ => take size l :: chunks_from fuel' size (drop size l)
  | _, _ => []
  end.

Definition chunks {A} (size : nat) (l : list A) : list (list A) :=
  chunks_from (length l) size l.

(** ** Exceptions and results *)

Inductive exn :=
| RemoteError (msg : string)   (** raised by a call to a remote service *)
| IndexError
| KeyError (key : string)
| TypeError
| ValueError (literal : string).

(** What a call gives its caller: a value, or an exception that leaves it. *)
Inductive result (A : Type) :=
| Returned (a : A)
| Raised (e : exn).
Arguments Returned {A} a.
Arguments Raised {A} e.

(** ** Python values held in a publication or in an iCite item *)

Class PyNum := {
  (** the type of Python [float] *)
  float : Type;
  (** [x == 0.0]: a float is falsy exactly when this holds *)
  float_is_zero : float → bool;
  (** [float(s)] on a [str]; [None] when it raises [ValueError] *)
  float_of_str : string → option float;
  (** [float(n)] on an [int]; [None] when it raises [OverflowError] *)
  float_of_int : Z → option float;
  (** [int(s)] on a [str]; [None] when it raises [ValueError] *)
  int_of_str : string → option Z;
  (** [int(x)] on a [float]; [None] on an infinity or a NaN *)
  int_of_float : float → option Z;
  (** [a / b] on two [int]s; [None] when it raises *)
  int_truediv : Z → Z → option float;
  (** [x / y] on two [float]s; [None] when it raises [ZeroDivisionError] *)
  float_truediv : float → float → option float;
  (** [x + y] on two [float]s *)
  float_add : float → float → float;
  (** the literal [1.5] *)
  float_1_5 : float;
  (** [str(x)] on a [float] *)
  float_repr : float → string
}.

Section Values.
Context `{PyNum}.

(** The JSON scalars: what the iCite response and the normalizer put in a
    publication. *)
Inductive pyval :=
| VNone
| VBool (b : bool)
| VInt (z : Z)
| VFloat (f : float)
| VStr (s : string).

Definition Z_of_bool (b : bool) : Z := if b then 1 else 0.

(** [bool(v)], the test of [if v] and [not v]. *)
Definition truthy (v : pyval) : bool :=
  match v with
  | VNone => false
  | VBool b => b
  | VInt z => negb (z =? 0)%Z
  | VFloat f => negb (float_is_zero f)
  | VStr s => negb (String.eqb s "")
  end.

(** [v == ""] *)
Definition is_empty_str (v : pyval) : bool :=
  match v with
  | VStr s => String.eqb s ""
  | _ => false
  end.

(** [int(v)]; [None] when it raises. *)
Definition py_int (v : pyval) : option Z :=
  match v with
  | VNone => None
  | VBool b => Some (Z_of_bool b)
  | VInt z => Some z
  | VFloat f => int_of_float f
  | VStr s => int_of_str s
  end.

(** [float(v)]; [None] when it raises. *)
Definition py_float (v : pyval) : option float :=
  match v with
  | VNone => None
  | VBool b => float_of_int (Z_of_bool b)
  | VInt z => float_of_int z
  | VFloat f => Some f
  | VStr s => float_of_str s
  end.

(** [v / n] for an [int] [n]; [None] when it raises. *)
Definition py_truediv (v : pyval) (n : Z) : option pyval :=
  match v with
  | VNone | VStr _ => None
  | VBool b => VFloat <$> int_truediv (Z_of_bool b) n
  | VInt z => VFloat <$> int_truediv z n
  | VFloat f => y ← float_of_int n; VFloat <$> float_truediv f y
  end.

(** [v + 1]; [None] when it raises. *)
Definition py_add1 (v : pyval) : option pyval :=
  match v with
  | VNone | VStr _ => None
  | VBool b => Some (VInt (Z_of_bool b + 1))
  | VInt z => Some (VInt (z + 1))
  | VFloat f => y ← float_of_int 1; Some (VFloat (float_add f y))
  end.

(** [str(v)] *)
Definition py_str (v : pyval) : string :=
  match v with
  | VNone => "None"
  | VBool b => if b then "True" else "False"
  | VInt z => pretty z
  | VFloat f => float_repr f
  | VStr s => s
  end.

(** [pub.get(k)], which is [None] for a missing key, and [pub.get(k, d)]. *)
Definition get (pub : gmap string pyval) (k : string) : pyval :=
  default VNone (pub !! k).
Definition get_or (pub : gmap string pyval) (k : string) (d : pyval) : pyval :=
  default d (pub !! k).

(** ** Metric Imputer: [compute_imputed_metrics] (lines 272-294)

    [now] is [datetime.now().year], read once per record and taken to be
    the same for every record of one call. *)

(** The body of the [try] at lines 279-284: the value assigned to
    [RCR_imputed], or [None] when the block raises. *)
Definition citation_velocity (now : Z) (year citations : pyval) : option pyval :=
  y ← py_int year;
  let years_since := (now - y)%Z in
  if (0 <? years_since)%Z then py_truediv citations years_since
  else py_add1 citations.

(** The value one iteration of the loop assigns to [pub["RCR_imputed"]]. *)
Definition rcr_imputed (now : Z) (pub : gmap string pyval) : pyval :=
  if negb (truthy (get pub "RCR")) || is_empty_str (get pub "RCR") then
    let year := get_or pub "Year" (VStr "") in
    let citations := get_or pub "Citation_Count" (VInt 0) in
    if truthy year && truthy citations then
      match citation_velocity now year citations with
      | Some v => v
      | None => VInt 0
      end
    else VInt 0
  else
    match py_float (get pub "RCR") with
    | Some f => VFloat f
    | None => VFloat float_1_5
    end.

Fixpoint compute_imputed_metrics (now : Z) (publications : list (gmap string pyval))
  : list (gmap string pyval) :=
  match publications with
  | [] => []
  | pub :: rest =>
      <["RCR_imputed" := rcr_imputed now pub]> pub :: compute_imputed_metrics now rest
  end.

(** ** Citation Enricher: [fetch_citation_counts] (lines 169-235) *)

(** What the [try] block of one batch gets from iCite. *)
Inductive lookup_result :=
| LookupOk (items : list (gmap string pyval))
    (** status 200; [items] is [response.json().get("data", [])] *)
| LookupNot200
    (** any other status code *)
| LookupRaised.
    (** [requests.get], [response.json()] or reading an item raised *)

(** The dictionary stored in [citation_map] for one item (lines 196-200). *)
Record cite_data := {
  citation_count : pyval;
  relative_citation_ratio : pyval;
  field_citation_rate : pyval
}.

Definition cite_data_of (item : gmap string pyval) : cite_data :=
  {| citation_count := get_or item "citation_count" (VInt 0);
     relative_citation_ratio := get_or item "relative_citation_ratio" (VStr "");
     field_citation_rate := get_or item "field_citation_rate" (VStr "") |}.

(** The loop of lines 194-200; a later item with the same pmid overwrites
    an earlier one. *)
Definition citation_map_of (items : list (gmap string pyval)) : gmap string cite_data :=
  foldl (λ m item, <[py_str (get_or item "pmid" (VStr "")) := cite_data_of item]> m) ∅ items.

(** The three assignments of lines 206-208, 210-212, 220-222 and 231-233. *)
Definition set_citation (cc rcr fcr : pyval) (pub : gmap string pyval) : gmap string pyval :=
  <["Field_Citation_Rate" := fcr]> (<["RCR" := rcr]> (<["Citation_Count" := cc]> pub)).

Definition set_empty_citation (pub : gmap string pyval) : gmap string pyval :=
  set_citation (VStr "") (VStr "") (VStr "") pub.

(** [p["PMID"]] as the [str] that [",".join] and the [citation_map] lookup
    need; [None] when the key is missing or holds no [str]. *)
Definition pub_pmid (pub : gmap string pyval) : option string :=
  match pub !! "PMID" with
  | Some (VStr s) => Some s
  | _ => None
  end.

(** Body of the loop at lines 203-212, run on every publication of the list. *)
Definition apply_citation_map (citation_map : gmap string cite_data)
    (pub : gmap string pyval) : gmap string pyval :=
  match pub_pmid pub with
  | Some pmid =>
      match citation_map !! pmid with
      | Some cite =>
          set_citation (citation_count cite) (relative_citation_ratio cite)
                       (field_citation_rate cite) pub
      | None => set_empty_citation pub
      end
  | None => pub
  end.

(** Body of the loops at lines 218-222 and 229-233. *)
Definition add_empty_if_missing (pub : gmap string pyval) : gmap string pyval :=
  match pub !! "Citation_Count" with
  | Some _ => pub
  | None => set_empty_citation pub
  end.

(** The iCite oracle: the number of the batch and its [pmid_str]. *)
Definition icite_oracle := nat → string → lookup_result.

(** One iteration of the batch loop (lines 182-233). *)
Definition enrich_batch (icite : icite_oracle) (k : nat) (batch_pmids : list string)
    (publications : list (gmap string pyval)) : list (gmap string pyval) :=
  match icite k (join "," batch_pmids) with
  | LookupOk items => apply_citation_map (citation_map_of items) <$> publications
  | LookupNot200 | LookupRaised => add_empty_if_missing <$> publications
  end.

Fixpoint enrich_batches (icite : icite_oracle) (k : nat) (batches : list (list string))
    (publications : list (gmap string pyval)) : list (gmap string pyval) :=
  match batches with
  | [] => publications
  | batch_pmids :: rest =>
      enrich_batches icite (S k) rest (enrich_batch icite k batch_pmids publications)
  end.

Definition citation_batch_size : nat := 1000.

(** [None] when the call raises: [p["PMID"]] on a publication without the
    key at line 179, or [",".join] over a PMID that is no [str] at line 183,
    both outside the [try]. *)
Definition fetch_citation_counts (icite : icite_oracle)
    (publications : list (gmap string pyval)) : option (list (gmap string pyval)) :=
  pmids ← mapM pub_pmid publications;
  Some (enrich_batches icite 0 (chunks citation_batch_size pmids) publications).

(** ** Raw Entrez records

    What [Entrez.read] returns for one [PubmedArticle], as far as the code
    reads it. A field read with [d[key]] or tested with [key in d] is an
    [option]: [None] is a missing key. *)

Record author := {
  LastName : option string;
  Initials : option string;
  CollectiveName : option string
}.

Record pub_date := {
  Year : option string;
  MedlineDate : option string
}.

Record journal_issue := { PubDate : option pub_date }.

Record journal := {
  JournalIssue : option journal_issue;
  Title : option string
}.

(** [AbstractText] is a list of parts or a single string (line 134). *)
Inductive abstract_text :=
| AbstractParts (parts : list string)
| AbstractString (text : string).

Record abstract_data := { AbstractText : option abstract_text }.

Record article := {
  Journal : option journal;
  ArticleTitle : option string;
  AuthorList : option (list author);
  Abstract : option abstract_data
}.

(** An element of [ArticleIdList]: its text and its [IdType] attribute. *)
Record article_id := {
  IdType : option string;
  id_text : string
}.

Record pubmed_data := { ArticleIdList : option (list article_id) }.

Record medline_citation := {
  Article : option article;
  PMID : option string
}.

Record record := {
  MedlineCitation : option medline_citation;
  PubmedData : option pubmed_data
}.

(** ** Record Normalizer and Author-Position Filter (lines 71-157) *)

(** Why the loop body leaves a record out: an exception caught at line 155,
    or one of the two [continue]s of the position filter. *)
Inductive skip :=
| RecordError
| AuthorPosition.

Inductive normalized :=
| Kept (pub_info : gmap string pyval)
| Skipped (why : skip).

(** [d[key]] inside the [try]: a missing key ends the iteration. *)
Definition need {A} (field : option A) (k : A → normalized) : normalized :=
  match field with
  | Some a => k a
  | None => Skipped RecordError
  end.

Notation "'let!' x := e 'in' k" := (need e (λ x, k))
  (at level 10, x name, e at level 100, k at level 200, only parsing).

(** Lines 78-81; [None] when [split()[0]] raises [IndexError]. *)
Definition extract_year (pd : pub_date) : option string :=
  let year := default "" (Year pd) in
  if String.eqb year "" then
    match MedlineDate pd with
    | Some medline_date => head (split medline_date)
    | None => Some year
    end
  else Some year.

(** Lines 84-89: the text of the first identifier of type [doi]. *)
Definition extract_doi (article_ids : list article_id) : string :=
  match list_find (λ a, IdType a = Some "doi") article_ids with
  | Some (_, a) => id_text a
  | None => ""
  end.

(** Lines 100-105: the display name of an author entry, when it has one. *)
Definition author_name_of (a : author) : option string :=
  match LastName a, Initials a, CollectiveName a with
  | Some last, Some initials, _ => Some (last +:+ " " +:+ initials)
  | _, _, Some collective => Some collective
  | _, _, _ => None
  end.

(** Lines 109-115: the index in [author_list] of the first entry whose
    upper-cased last name is the searched one. *)
Definition author_position (search_last_name : string) (author_list : list author)
  : option nat :=
  fst <$> list_find (λ a, upper <$> LastName a = Some search_last_name) author_list.

(** Lines 118-128: [true] when the record goes on, [false] on a [continue]. *)
Definition position_accepts (position : option nat) (num_authors : nat) : bool :=
  match position with
  | Some pos =>
      let is_first_two := (Z.of_nat pos <? 2)%Z in
      let is_last_two := (Z.of_nat num_authors - 2 <=? Z.of_nat pos)%Z in
      is_first_two || is_last_two
  | None => false
  end.

(** Lines 131-137. *)
Definition extract_abstract (art : article) : string :=
  match Abstract art with
  | Some a =>
      match AbstractText a with
      | Some (AbstractParts parts) => join " " parts
      | Some (AbstractString text) => text
      | None => ""
      end
  | None => ""
  end.

(** The dictionary built at lines 142-151. *)
Definition pub_info (pmid title authors journal year doi abstract : string)
  : gmap string pyval :=
  <["PMID" := VStr pmid]> (
  <["Title" := VStr title]> (
  <["Authors" := VStr authors]> (
  <["Journal" := VStr journal]> (
  <["Year" := VStr year]> (
  <["DOI" := VStr doi]> (
  <["Abstract" := VStr abstract]> (
  {["PubMed_URL" := VStr ("https://pubmed.ncbi.nlm.nih.gov/" +:+ pmid +:+ "/")]}))))))).

(** The body of the loop over the records of a batch (lines 72-157). *)
Definition process_record (search_last_name : string) (filter_author_position : bool)
    (rec : record) : normalized :=
  let! citation := MedlineCitation rec in
  let! art := Article citation in
  let article_ids := default [] (pd ← PubmedData rec; ArticleIdList pd) in
  let! jour := Journal art in
  let! issue := JournalIssue jour in
  let! pd := PubDate issue in
  let! year := extract_year pd in
  let doi := extract_doi article_ids in
  let! pmid := PMID citation in
  let title := default "" (ArticleTitle art) in
  let author_list := default [] (AuthorList art) in
  let authors := omap author_name_of author_list in
  let authors_str := join ", " authors in
  let position := author_position search_last_name author_list in
  if filter_author_position && negb (position_accepts position (length authors)) then
    Skipped AuthorPosition
  else
    let abstract := extract_abstract art in
    let! journal_title := Title jour in
    Kept (pub_info pmid title authors_str journal_title year doi abstract).

(** The publications a batch of records appends, in the order of the records. *)
Definition process_records (search_last_name : string) (filter_author_position : bool)
    (records : list record) : list (gmap string pyval) :=
  omap (λ rec, match process_record search_last_name filter_author_position rec with
               | Kept pub_info => Some pub_info
               | Skipped _ => None
               end) records.

(** ** Aggregation Pipeline: [fetch_author_publications] (lines 15-166) *)

(** What lines 64-66 give for one batch: an exception, or the parsed
    response with the value under its [PubmedArticle] key, if it has one. *)
Inductive fetch_result :=
| FetchRaised (e : exn)
| Fetched (PubmedArticle : option (list record)).

(** The remote services.
    - [esearch term]: lines 45-47, the identifier list or the exception.
    - [efetch k ids]: the detail fetch of batch number [k] for the
      comma-joined identifiers.
    - [icite k pmids]: the iCite lookup of batch number [k]. *)
Record services := {
  esearch : string → result (list string);
  efetch : nat → string → fetch_result;
  icite : icite_oracle
}.

(** A year bound is used when it is truthy: given, and not the integer 0. *)
Definition year_given (y : option Z) : bool :=
  match y with
  | Some z => negb (z =? 0)%Z
  | None => false
  end.

(** [y or fallback], interpolated in the search term. *)
Definition year_or (y : option Z) (fallback : string) : string :=
  match y with
  | Some z => if (z =? 0)%Z then fallback else pretty z
  | None => fallback
  end.

(** Lines 36-40. *)
Definition search_term (author_name : string) (start_year end_year : option Z) : string :=
  let term := dquote +:+ author_name +:+ "[Author]" +:+ dquote in
  if year_given start_year || year_given end_year then
    term +:+ " AND (" +:+ dquote +:+ year_or start_year "1900" +:+ dquote +:+ "[dp] : "
         +:+ dquote +:+ year_or end_year "3000" +:+ dquote +:+ "[dp])"
  else term.

Definition fetch_batch_size : nat := 100.

(** The loop of lines 59-157 from batch number [k] on; [publications] is
    the list built so far. It raises when a fetched response has no
    [PubmedArticle] key (line 71, outside the [try]). *)
Fixpoint fetch_batches (env : services) (search_last_name : string)
    (filter_author_position : bool) (k : nat) (batches : list (list string))
    (publications : list (gmap string pyval)) : result (list (gmap string pyval)) :=
  match batches with
  | [] => Returned publications
  | batch_ids :: rest =>
      match efetch env k (join "," batch_ids) with
      | FetchRaised _ =>
          fetch_batches env search_last_name filter_author_position (S k) rest publications
      | Fetched None => Raised (KeyError "PubmedArticle")
      | Fetched (Some records) =>
          fetch_batches env search_last_name filter_author_position (S k) rest
            (publications ++ process_records search_last_name filter_author_position records)
      end
  end.

(** The key of the sort at line 160. Every dictionary built at lines
    142-151 holds a [str] under [Year]. *)
Definition year_key (pub : gmap string pyval) : string :=
  match get_or pub "Year" (VStr "") with
  | VStr s => s
  | _ => ""
  end.

(** [publications.sort(key=..., reverse=True)]: the stable sort by the key,
    largest first. [list.sort] keeps the order of the elements with equal
    keys, also under [reverse=True]; that fixes its result, which this
    insertion sort computes. *)
Fixpoint insert_desc (pub : gmap string pyval) (sorted : list (gmap string pyval))
  : list (gmap string pyval) :=
  match sorted with
  | [] => [pub]
  | p :: rest =>
      if String.ltb (year_key pub) (year_key p) then p :: insert_desc pub rest
      else pub :: p :: rest
  end.

Fixpoint sort_by_year_desc (publications : list (gmap string pyval))
  : list (gmap string pyval) :=
  match publications with
  | [] => []
  | pub :: rest => insert_desc pub (sort_by_year_desc rest)
  end.

(** Lines 56-157: the publications collected before the sort. *)
Definition collect_publications (env : services) (search_last_name : string)
    (filter_author_position : bool) (ids : list string)
  : result (list (gmap string pyval)) :=
  fetch_batches env search_last_name filter_author_position 0
    (chunks fetch_batch_size ids) [].

(** [email] and [output_format] do not reach the result and are left out. *)
Definition fetch_author_publications (env : services) (author_name : string)
    (start_year end_year : option Z) (filter_author_position : bool)
  : result (list (gmap string pyval)) :=
  match split author_name with
  | [] => Raised IndexError
  | last_name :: _ =>
      let search_last_name := upper last_name in
      match esearch env (search_term author_name start_year end_year) with
      | Raised e => Raised e
      | Returned ids =>
          if ids is [] then Returned []
          else
            match collect_publications env search_last_name filter_author_position ids with
            | Raised e => Raised e
            | Returned publications =>
                match fetch_citation_counts (icite env) (sort_by_year_desc publications) with
                | Some enriched => Returned enriched
                | None => Raised TypeError
                end
            end
      end
  end.

(** ** The web boundary: [results] of [app.py] (lines 55-79) *)

Inductive response :=
| RedirectHome
    (** [redirect(url_for('home'))] *)
| RenderError (e : exn)
    (** [base.html] with the content [<p>Error fetching publications: e</p>] *)
| RenderResults (publications : list (gmap string pyval)) (author_name : string).
    (** [results.html] with the publication list *)

(** [int(y) if y else None] *)
Definition year_arg (y : string) : result (option Z) :=
  if String.eqb y "" then Returned None
  else match int_of_str y with
       | Some z => Returned (Some z)
       | None => Raised (ValueError y)
       end.

(** [args] is [request.args]; [now] the year of the wall clock. The
    [email] argument only sets [Entrez.email] and is left out. *)
Definition results (env : services) (now : Z) (args : gmap string string) : response :=
  let author := strip (default "" (args !! "author")) in
  let start_year := strip (default "" (args !! "start_year")) in
  let end_year := strip (default "" (args !! "end_year")) in
  let filter_position := String.eqb (default "1" (args !! "filter_position")) "1" in
  if String.eqb author "" then RedirectHome
  else
    match year_arg start_year with
    | Raised e => RenderError e
    | Returned start =>
        match year_arg end_year with
        | Raised e => RenderError e
        | Returned stop =>
            match fetch_author_publications env author start stop filter_position with
            | Raised e => RenderError e
            | Returned pubs => RenderResults (compute_imputed_metrics now pubs) author
            end
        end
    end.

End Values.

(** ** The HTML page and the output files: [highlight_authors], the total
    of [build_html_content] and the file name of [save_publications] *)

(** [s.lower()] *)
Definition lower_char (c : ascii) : ascii :=
  let n := nat_of_ascii c in
  if ((65 <=? n) && (n <=? 90))%nat then ascii_of_nat (n + 32) else c.

Fixpoint lower (s : string) : string :=
  match s with
  | EmptyString => ""
  | String c s' => String (lower_char c) (lower s')
  end.

(** [s.split(sep)] for a separator of one character *)
Fixpoint split_on_from (sep : ascii) (word s : string) : list string :=
  match s with
  | EmptyString => [word]
  | String c s' =>
      if Ascii.eqb c sep then word :: split_on_from sep "" s'
      else split_on_from sep (word +:+ String c "") s'
  end.

Definition split_on (sep : ascii) (s : string) : list string := split_on_from sep "" s.

(** [s.replace(old, "")] and [s.replace(old, new)] for one-character
    [old] and [new] *)
Fixpoint remove_char (old : ascii) (s : string) : string :=
  match s with
  | EmptyString => ""
  | String c s' => if Ascii.eqb c old then remove_char old s' else String c (remove_char old s')
  end.

Fixpoint replace_char (old new : ascii) (s : string) : string :=
  match s with
  | EmptyString => ""
  | String c s' => String (if Ascii.eqb c old then new else c) (replace_char old new s')
  end.

(** Line 248 of [save_publications]: the author name as it enters the
    file names. *)
Definition clean_name (author_name : string) : string :=
  remove_char "034" (replace_char " " "_" author_name).

(** Lines 300-301 and 306-307: the lower-cased first word, and the
    lower-cased concatenation of the others. *)
Definition name_last (parts : list string) : string := lower (default "" (head parts)).

Definition name_initials (parts : list string) : string :=
  if (1 <? length parts)%nat then lower (join "" (tail parts)) else "".

(** Line 302: [[t.strip() for t in authors_str.split(",") if t.strip()]] *)
Definition author_tokens (authors_str : string) : list string :=
  filter (λ t, t ≠ "") (strip <$> split_on "," authors_str).

(** Lines 305-311, for one token. *)
Definition highlight_token (search_last search_initials t : string) : string :=
  let segs := split t in
  if String.eqb (name_last segs) search_last
     && (String.eqb search_initials "" || String.prefix search_initials (name_initials segs))
  then "<strong>" +:+ t +:+ "</strong>"
  else t.

(** [highlight_authors] (lines 297-312). *)
Definition highlight_authors (authors_str author_name : string) : string :=
  let parts := split author_name in
  join ", " (highlight_token (name_last parts) (name_initials parts)
               <$> author_tokens authors_str).

Section Page.
Context `{PyNum}.

(** [int(p.get("Citation_Count", 0) or 0)] (line 468); [None] when [int]
    raises. *)
Definition citation_count_of (pub : gmap string pyval) : option Z :=
  let count := get_or pub "Citation_Count" (VInt 0) in
  py_int (if truthy count then count else VInt 0).

(** [sum(... for p in publications)] (line 468): the counts are added up
    from the first publication on; [None] when a conversion raises. *)
Definition total_citations (publications : list (gmap string pyval)) : option Z :=
  foldl (λ total pub, t ← total; c ← citation_count_of pub; Some (t + c)%Z)
        (Some 0%Z) publications.

End Page.

(** ** An executable [PyNum] on IEEE doubles

    Python's [float] is the IEEE binary64 of [PrimFloat]. The conversions
    are the exact ones on the inputs the examples below use: integers of
    magnitude below [2^53], and decimal literals [digits] or
    [digits.digits] with at most 15 digits, where one correctly rounded
    division gives the nearest double. Outside that range they answer
    [None]; the theorems are proved for every [PyNum] and do not depend on
    this one. *)
Module Double.

Definition of_Z (z : Z) : option PrimFloat.float :=
  if (Z.abs z <? 2 ^ 53)%Z then
    let magnitude := PrimFloat.of_uint63 (Uint63.of_Z (Z.abs z)) in
    Some (if (z <? 0)%Z then PrimFloat.opp magnitude else magnitude)
  else None.

Definition is_zero (x : PrimFloat.float) : bool := PrimFloat.eqb x 0%float.

Definition div (x y : PrimFloat.float) : option PrimFloat.float :=
  if is_zero y then None else Some (PrimFloat.div x y).

Definition int_div (a b : Z) : option PrimFloat.float :=
  x ← of_Z a; y ← of_Z b; div x y.

(** Truncation toward zero of a finite double. *)
Definition to_Z (x : PrimFloat.float) : option Z :=
  match Prim2SF x with
  | S754_zero _ => Some 0%Z
  | S754_finite negative m e =>
      let magnitude := Z.shiftl (Z.pos m) e in
      Some (if negative then (- magnitude)%Z else magnitude)
  | _ => None
  end.

Definition digit (c : ascii) : option Z :=
  let n := nat_of_ascii c in
  if ((48 <=? n) && (n <=? 57))%nat then Some (Z.of_nat (n - 48)) else None.

(** The value of a non-empty string of decimal digits. *)
Fixpoint digits_from (acc : Z) (s : string) : option Z :=
  match s with
  | EmptyString => Some acc
  | String c s' => d ← digit c; digits_from (10 * acc + d)%Z s'
  end.

Definition digits (s : string) : option Z :=
  if s is EmptyString then None else digits_from 0 s.

(** [s] without its sign, and whether the sign was a minus. *)
Definition signed (s : string) : bool * string :=
  match s with
  | String "-" s' => (true, s')
  | String "+" s' => (false, s')
  | _ => (false, s)
  end.

Definition apply_sign (negative : bool) (z : Z) : Z := if negative then (- z)%Z else z.

Definition parse_int (s : string) : option Z :=
  let '(negative, body) := signed (strip s) in
  apply_sign negative <$> digits body.

(** [body] cut at its first point, if it has one. *)
Fixpoint cut_point (whole body : string) : string * option string :=
  match body with
  | EmptyString => (whole, None)
  | String "." fraction => (whole, Some fraction)
  | String c body' => cut_point (whole +:+ String c "") body'
  end.

Definition parse_float (s : string) : option PrimFloat.float :=
  let '(negative, body) := signed (strip s) in
  let '(whole, fraction) := cut_point "" body in
  let fraction := default "0" fraction in
  if (String.length whole + String.length fraction <=? 15)%nat then
    w ← digits whole; f ← digits fraction;
    let scale := (10 ^ Z.of_nat (String.length fraction))%Z in
    int_div (apply_sign negative (w * scale + f)) scale
  else None.

(** Decimal digits of a natural number, most significant first. *)
Fixpoint show_digits (fuel : nat) (n : N) (acc : string) : string :=
  let acc := String (ascii_of_N (48 + n mod 10)) acc in
  match fuel with
  | S fuel' => if (n / 10 =? 0)%N then acc else show_digits fuel' (n / 10) acc
  | O => acc
  end.

(** [repr] of a double with an integral value of magnitude below [10^15],
    the only doubles an example prints; the others get a placeholder. *)
Definition repr (x : PrimFloat.float) : string :=
  match to_Z x with
  | Some z =>
      if (Z.abs z <? 10 ^ 15)%Z && (if of_Z z is Some y then PrimFloat.eqb x y else false)
      then (if (z <? 0)%Z then "-" else "") +:+ show_digits 15 (Z.abs_N z) "" +:+ ".0"
      else "<float>"
  | None => "<float>"
  end.

#[export] Instance num : PyNum := {|
  float := PrimFloat.float;
  float_is_zero := is_zero;
  float_of_str := parse_float;
  float_of_int := of_Z;
  int_of_str := parse_int;
  int_of_float := to_Z;
  int_truediv := int_div;
  float_truediv := div;
  float_add := PrimFloat.add;
  float_1_5 := 1.5%float;
  float_repr := repr
|}.

(** A double as a Python value. *)
Definition val (x : PrimFloat.float) : @pyval num := VFloat x.

(** [v] is the double [x]. *)
Definition is_val (x : PrimFloat.float) (v : @pyval num) : bool :=
  match v with
  | VFloat y => PrimFloat.eqb y x
  | _ => false
  end.

End Double.


(** ** Concrete inputs

    The records, publications and service behaviours the examples and
    counterexamples below run the code on. *)
Module Example.
#[local] Existing Instance Double.num.

(** [s.split(",")] *)
Fixpoint comma_separated_from (word s : string) : list string :=
  match s with
  | EmptyString => [word]
  | String "," s' => word :: comma_separated_from "" s'
  | String c s' => comma_separated_from (word +:+ String c "") s'
  end.

Definition comma_separated (s : string) : list string := comma_separated_from "" s.

(** A publication as the normalizer builds it. *)
Definition publication (pmid year : string) : gmap string pyval :=
  pub_info pmid "A title" "Knowles DA" "A journal" year "" "".

(** An iCite entry: 7 citations, ratio 1.5, field rate 2.5. *)
Definition icite_item (pmid : Z) : gmap string pyval :=
  <["pmid" := VInt pmid]> (
  <["citation_count" := VInt 7]> (
  <["relative_citation_ratio" := VFloat 1.5%float]> (
  {["field_citation_rate" := VFloat 2.5%float]}))).

(** iCite answering every batch with an entry for each requested pmid. *)
Definition icite_up : icite_oracle :=
  λ _ pmid_str, LookupOk (omap (λ s, icite_item <$> Double.parse_int s)
                               (comma_separated pmid_str)).

(** iCite failing every request. *)
Definition icite_down : icite_oracle := λ _ _, LookupRaised.

(** 1001 publications, PMIDs 1 to 1001: two enrichment batches. *)
Definition thousand_and_one : list (gmap string pyval) :=
  (λ n, publication (pretty n) "2020") <$> seq 1 1001.

(** The value under [k] of the publication at index [i]. *)
Definition field_at (i : nat) (k : string) (publications : list (gmap string pyval))
  : option pyval :=
  pub ← publications !! i; pub !! k.

(** Publication 1 after a successful lookup by [icite_up]. *)
Definition enriched_one : gmap string pyval :=
  set_citation (VInt 7) (VFloat 1.5%float) (VFloat 2.5%float) (publication "1" "2020").

(** A publication with a true zero as its impact ratio. *)
Definition zero_rcr : gmap string pyval :=
  <["RCR" := VFloat 0%float]> (
  <["Citation_Count" := VInt 10]> (publication "1" "2020")).

(** A publication that enters the enricher with a citation count only. *)
Definition count_only : gmap string pyval :=
  <["Citation_Count" := VInt 5]> (publication "1" "2020").

(** Author entries: with initials, and with a last name only. *)
Definition person (last initials : string) : author :=
  {| LastName := Some last; Initials := Some initials; CollectiveName := None |}.

Definition surname_only (last : string) : author :=
  {| LastName := Some last; Initials := None; CollectiveName := None |}.

(** A raw record with the given PMID, publication date and authors. *)
Definition raw_record (pmid : string) (pd : pub_date) (authors : list author) : record :=
  {| MedlineCitation := Some
       {| Article := Some
            {| Journal := Some {| JournalIssue := Some {| PubDate := Some pd |};
                                  Title := Some "A journal" |};
               ArticleTitle := Some "A title";
               AuthorList := Some authors;
               Abstract := None |};
          PMID := Some pmid |};
     PubmedData := None |}.

Definition year_2019 : pub_date := {| Year := Some "2019"; MedlineDate := None |}.
Definition year_2020 : pub_date := {| Year := Some "2020"; MedlineDate := None |}.
Definition medline_2020 : pub_date := {| Year := None; MedlineDate := Some "2020 Jan-Feb" |}.
Definition no_date : pub_date := {| Year := None; MedlineDate := None |}.
Definition blank_medline_date : pub_date := {| Year := None; MedlineDate := Some "" |}.

(** Five authors, the searched one third; the fifth has no initials. *)
Definition five_authors : list author :=
  [person "Adams" "A"; person "Baker" "B"; person "Knowles" "DA";
   person "Clark" "C"; surname_only "Madonna"].

(** The same five, all with initials. *)
Definition five_named_authors : list author :=
  [person "Adams" "A"; person "Baker" "B"; person "Knowles" "DA";
   person "Clark" "C"; person "Davis" "D"].

Definition knowles : list author := [person "Knowles" "DA"].

(** A search that finds 101 identifiers, fetched in two batches: the
    first batch comes back with the records 1, of 2019, and 2, of 2020;
    the second fetch fails. iCite is down. *)
Definition second_fetch_fails : services :=
  {| esearch := λ _, Returned (pretty <$> seq 1 101);
     efetch := λ k _,
       if k is 0%nat
       then Fetched (Some [raw_record "1" year_2019 knowles;
                           raw_record "2" year_2020 knowles])
       else FetchRaised (RemoteError "timed out");
     icite := icite_down |}.

(** What the pipeline returns for it: the two publications, newest first,
    with empty citation fields. *)
Definition two_results : list (gmap string pyval) :=
  [set_empty_citation (publication "2" "2020");
   set_empty_citation (publication "1" "2019")].

(** A literature search that fails. *)
Definition search_fails : services :=
  {| esearch := λ _, Raised (RemoteError "HTTP Error 502: Bad Gateway");
     efetch := λ _ _, Fetched (Some []);
     icite := icite_down |}.

(** The query string [?author=Knowles DA]. *)
Definition knowles_query : gmap string string := {["author" := "Knowles DA"]}.

(** One fetched batch of two records: the searched author stands alone in
    the first and is third of five in the second. iCite answers. *)
Definition one_batch : services :=
  {| esearch := λ _, Returned ["1"; "2"];
     efetch := λ _ _,
       Fetched (Some [raw_record "1" year_2019 knowles;
                      raw_record "2" year_2020 five_named_authors]);
     icite := icite_up |}.

(** What the pipeline returns for it with the position filter off. *)
Definition both_enriched : list (gmap string pyval) :=
  [set_citation (VInt 7) (VFloat 1.5%float) (VFloat 2.5%float)
     (pub_info "2" "A title" "Adams A, Baker B, Knowles DA, Clark C, Davis D"
               "A journal" "2020" "" "");
   set_citation (VInt 7) (VFloat 1.5%float) (VFloat 2.5%float) (publication "1" "2019")].

(** A search that finds 101 identifiers; the second fetched response has
    no [PubmedArticle] key. *)
Definition second_response_malformed : services :=
  {| esearch := λ _, Returned (pretty <$> seq 1 101);
     efetch := λ k _,
       if k is 0%nat then Fetched (Some [raw_record "1" year_2019 knowles])
       else Fetched None;
     icite := icite_down |}.

(** An article identifier of the given type. *)
Definition identifier (kind text : string) : article_id :=
  {| IdType := Some kind; id_text := text |}.

(** The query strings [?author=%20%20] and
    [?author=Knowles DA&start_year=20x0]. *)
Definition blank_query : gmap string string := {["author" := "  "]}.

Definition bad_year_query : gmap string string :=
  <["start_year" := "20x0"]> knowles_query.

Definition three_names : list string := ["Adams A"; "Knowles DA"; "Clark C"].

End Example.

(** * Properties *)

(** ** Specification vocabulary *)

Section Vocabulary.
Context `{PyNum}.

(** The fields the Citation Enricher writes, and the one the Imputer writes. *)
Definition citation_fields : list string :=
  ["Citation_Count"; "RCR"; "Field_Citation_Rate"].

Definition normalizer_fields : list string :=
  ["PMID"; "Title"; "Authors"; "Journal"; "Year"; "DOI"; "Abstract"; "PubMed_URL"].

(** [pub'] is [pub] except, possibly, under the keys of [written]. *)
Definition same_except (written : list string) (pub pub' : gmap string pyval) : Prop :=
  ∀ k, k ∉ written → pub' !! k = pub !! k.

(** All three citation fields are set. *)
Definition has_citation_fields (pub : gmap string pyval) : Prop :=
  ∀ k, k ∈ citation_fields → is_Some (pub !! k).

(** What a publication must look like on entry for the failure branches to
    complete it: no [Citation_Count] yet, or all three fields already. *)
Definition enrichable (pub : gmap string pyval) : Prop :=
  is_Some (pub_pmid pub)
  ∧ (pub !! "Citation_Count" = None ∨ has_citation_fields pub).

(** The value the code gives [RCR_imputed], case by case. The test of line
    275 is truthiness: a missing key, [None] and the empty string take the
    estimate branch, and so does a zero. *)
Inductive imputed_impact (now : Z) (pub : gmap string pyval) : pyval → Prop :=
| impact_authoritative f :
    truthy (get pub "RCR") = true →
    py_float (get pub "RCR") = Some f →
    imputed_impact now pub (VFloat f)
| impact_unparseable :
    truthy (get pub "RCR") = true →
    py_float (get pub "RCR") = None →
    imputed_impact now pub (VFloat float_1_5)
| impact_velocity y q :
    truthy (get pub "RCR") = false →
    truthy (get_or pub "Year" (VStr "")) = true →
    truthy (get_or pub "Citation_Count" (VInt 0)) = true →
    py_int (get_or pub "Year" (VStr "")) = Some y →
    (0 < now - y)%Z →
    py_truediv (get_or pub "Citation_Count" (VInt 0)) (now - y) = Some q →
    imputed_impact now pub q
| impact_recent y q :
    truthy (get pub "RCR") = false →
    truthy (get_or pub "Year" (VStr "")) = true →
    truthy (get_or pub "Citation_Count" (VInt 0)) = true →
    py_int (get_or pub "Year" (VStr "")) = Some y →
    (now - y ≤ 0)%Z →
    py_add1 (get_or pub "Citation_Count" (VInt 0)) = Some q →
    imputed_impact now pub q
| impact_error :
    truthy (get pub "RCR") = false →
    truthy (get_or pub "Year" (VStr "")) = true →
    truthy (get_or pub "Citation_Count" (VInt 0)) = true →
    citation_velocity now (get_or pub "Year" (VStr ""))
      (get_or pub "Citation_Count" (VInt 0)) = None →
    imputed_impact now pub (VInt 0)
| impact_missing :
    truthy (get pub "RCR") = false →
    truthy (get_or pub "Year" (VStr "")) = false
      ∨ truthy (get_or pub "Citation_Count" (VInt 0)) = false →
    imputed_impact now pub (VInt 0).

(** Largest year first, under the lexical order on strings. *)
Definition year_desc (p q : gmap string pyval) : Prop :=
  String.leb (year_key q) (year_key p) = true.

(** The publications batch number [k] contributes: those of its records
    when the fetch succeeds, none when it raises. *)
Definition batch_publications (env : services) (search_last_name : string)
    (filter_author_position : bool) (k : nat) (batch_ids : list string)
  : list (gmap string pyval) :=
  match efetch env k (join "," batch_ids) with
  | Fetched (Some records) => process_records search_last_name filter_author_position records
  | _ => []
  end.

(** The publications in the order the fetch loop appended them, before
    the sort and the enrichment. *)
Definition collected_publications (env : services) (author_name : string)
    (start_year end_year : option Z) (filter_author_position : bool)
  : list (gmap string pyval) :=
  match split author_name, esearch env (search_term author_name start_year end_year) with
  | last_name :: _, Returned ids =>
      match collect_publications env (upper last_name) filter_author_position ids with
      | Returned publications => publications
      | Raised _ => []
      end
  | _, _ => []
  end.

(** An author entry that gets a display name. *)
Definition displayable (a : author) : Prop := is_Some (author_name_of a).

(** [RCR] is present and non-empty, read literally: the key is there and
    holds neither [None] nor the empty string. *)
Definition rcr_present (pub : gmap string pyval) : Prop :=
  ∃ v, pub !! "RCR" = Some v ∧ v ≠ VNone ∧ v ≠ VStr "".

End Vocabulary.

(** Vocabulary of the further properties. *)

Section MoreVocabulary.
Context `{PyNum}.

(** A dictionary as lines 142-151 build it. *)
Definition built_by_normalizer (pub : gmap string pyval) : Prop :=
  ∃ pmid title authors journal year doi abstract,
    pub = pub_info pmid title authors journal year doi abstract.

(** The eight normalizer fields hold strings and the three citation
    fields are set. *)
Definition complete_publication (pub : gmap string pyval) : Prop :=
  (∀ k, k ∈ normalizer_fields → ∃ s, pub !! k = Some (VStr s))
  ∧ has_citation_fields pub.

(** The record has every field the loop body reads with [d[key]], and a
    year can be extracted. *)
Definition well_formed (rec : record) : Prop :=
  ∃ citation art jour issue pd,
    MedlineCitation rec = Some citation
    ∧ Article citation = Some art
    ∧ Journal art = Some jour
    ∧ JournalIssue jour = Some issue
    ∧ PubDate issue = Some pd
    ∧ is_Some (extract_year pd)
    ∧ is_Some (PMID citation)
    ∧ is_Some (Title jour).

(** The author entries of a record. *)
Definition record_authors (rec : record) : list author :=
  default [] (citation ← MedlineCitation rec; art ← Article citation; AuthorList art).

(** The searched last name, compared in upper case, first occurs at index
    [i] of the author entries. *)
Definition first_match (search_last_name : string) (author_list : list author)
    (i : nat) : Prop :=
  (∃ a, author_list !! i = Some a ∧ upper <$> LastName a = Some search_last_name)
  ∧ ∀ j b, author_list !! j = Some b → (j < i)%nat →
           upper <$> LastName b ≠ Some search_last_name.

(** The searched author stands at one of the first two or the last two
    positions of the author list. *)
Definition in_first_or_last_two (search_last_name : string)
    (author_list : list author) : Prop :=
  ∃ i, first_match search_last_name author_list i
       ∧ (i < 2 ∨ length author_list ≤ i + 2)%nat.



(** A string of whitespace only. *)
Fixpoint blank (s : string) : bool :=
  match s with
  | EmptyString => true
  | String c s' => is_space c && blank s'
  end.

(** [c] occurs in [s]. *)
Fixpoint has_char (c : ascii) (s : string) : bool :=
  match s with
  | EmptyString => false
  | String c' s' => Ascii.eqb c' c || has_char c s'
  end.

(** A display name that survives the comma-separated [Authors] string:
    not empty, no comma, no whitespace at either end. *)
Definition tidy_name (name : string) : Prop :=
  name ≠ "" ∧ strip name = name ∧ has_char "," name = false.

(** A value [int(... or 0)] accepts whatever the number parser: [None],
    the empty string, or an [int]. *)
Definition countable_value (v : pyval) : Prop :=
  v = VNone ∨ v = VStr "" ∨ ∃ z, v = VInt z.

(** The key [k] of [d] is absent or holds such a value. *)
Definition counts_under (k : string) (d : gmap string pyval) : Prop :=
  match d !! k with
  | Some v => countable_value v
  | None => True
  end.

Definition countable (pub : gmap string pyval) : Prop := counts_under "Citation_Count" pub.

(** The count it contributes to the total. *)
Definition count_of (pub : gmap string pyval) : Z :=
  match pub !! "Citation_Count" with
  | Some (VInt z) => z
  | _ => 0
  end.

End MoreVocabulary.

(** Membership in a list that is written out. *)
Ltac in_literal :=
  repeat first [apply list_elem_of_here | apply list_elem_of_further].

(** ** Metric Imputer *)

Section Imputer.
Context `{PyNum}.
Implicit Types (pub : gmap string pyval) (publications : list (gmap string pyval)).

(** The second test of line 275 adds nothing to the first. *)
Lemma empty_str_falsy v : is_empty_str v = true → truthy v = false.
Proof. destruct v; simpl; try discriminate. by intros ->. Qed.

Lemma rcr_test v : negb (truthy v) || is_empty_str v = negb (truthy v).
Proof.
  destruct (is_empty_str v) eqn:E.
  - by rewrite (empty_str_falsy v E).
  - by rewrite orb_false_r.
Qed.

Lemma compute_imputed_metrics_fmap now publications :
  compute_imputed_metrics now publications
  = (λ pub, <["RCR_imputed" := rcr_imputed now pub]> pub) <$> publications.
Proof. induction publications as [|pub rest IH]; simpl; [done | by rewrite IH]. Qed.

Lemma rcr_imputed_spec now pub : imputed_impact now pub (rcr_imputed now pub).
Proof.
  unfold rcr_imputed. rewrite rcr_test.
  destruct (truthy (get pub "RCR")) eqn:Hrcr; simpl.
  - destruct (py_float (get pub "RCR")) eqn:Hf.
    + by apply impact_authoritative.
    + by apply impact_unparseable.
  - destruct (truthy (get_or pub "Year" (VStr ""))) eqn:Hy; simpl;
      [| apply impact_missing; auto].
    destruct (truthy (get_or pub "Citation_Count" (VInt 0))) eqn:Hc; simpl;
      [| apply impact_missing; auto].
    destruct (citation_velocity now _ _) as [v|] eqn:Hv; [| by apply impact_error].
    unfold citation_velocity in Hv.
    destruct (py_int (get_or pub "Year" (VStr ""))) as [y|] eqn:Hint;
      simpl in Hv; [| done].
    destruct (0 <? now - y)%Z eqn:Hpos.
    + apply (impact_velocity now pub y); auto. by apply Z.ltb_lt.
    + apply (impact_recent now pub y); auto. by apply Z.ltb_ge.
Qed.

(** The specification determines the value: no two cases overlap. *)
Lemma imputed_impact_functional now pub v w :
  imputed_impact now pub v → imputed_impact now pub w → v = w.
Proof.
  assert (Hvel : ∀ y q, py_int (get_or pub "Year" (VStr "")) = Some y →
            (0 < now - y)%Z →
            py_truediv (get_or pub "Citation_Count" (VInt 0)) (now - y) = Some q →
            citation_velocity now (get_or pub "Year" (VStr ""))
              (get_or pub "Citation_Count" (VInt 0)) = Some q).
  { intros y q Hy Hpos Hq. unfold citation_velocity. rewrite Hy. simpl.
    by rewrite (proj2 (Z.ltb_lt _ _) Hpos). }
  assert (Hrec : ∀ y q, py_int (get_or pub "Year" (VStr "")) = Some y →
            (now - y ≤ 0)%Z →
            py_add1 (get_or pub "Citation_Count" (VInt 0)) = Some q →
            citation_velocity now (get_or pub "Year" (VStr ""))
              (get_or pub "Citation_Count" (VInt 0)) = Some q).
  { intros y q Hy Hpos Hq. unfold citation_velocity. rewrite Hy. simpl.
    by rewrite (proj2 (Z.ltb_ge _ _) Hpos). }
  intros Hv Hw.
  destruct Hv, Hw;
    repeat match goal with
    | H : py_int _ = Some _, H1 : (0 < _)%Z, H2 : py_truediv _ _ = Some _ |- _ =>
        apply (Hvel _ _ H H1) in H2; clear H H1
    | H : py_int _ = Some _, H1 : (_ ≤ 0)%Z, H2 : py_add1 _ = Some _ |- _ =>
        apply (Hrec _ _ H H1) in H2; clear H H1
    end;
    try congruence; intuition congruence.
Qed.

(** The imputed value is read off [RCR], [Year] and [Citation_Count]. *)
Lemma rcr_imputed_ext now pub pub' :
  pub' !! "RCR" = pub !! "RCR" →
  pub' !! "Year" = pub !! "Year" →
  pub' !! "Citation_Count" = pub !! "Citation_Count" →
  rcr_imputed now pub' = rcr_imputed now pub.
Proof. intros H1 H2 H3. unfold rcr_imputed, get, get_or. by rewrite H1, H2, H3. Qed.

Lemma rcr_imputed_insert now pub v :
  rcr_imputed now (<["RCR_imputed" := v]> pub) = rcr_imputed now pub.
Proof. apply rcr_imputed_ext; by rewrite lookup_insert_ne. Qed.

Lemma same_except_refl written pub : same_except written pub pub.
Proof. by intros k _. Qed.

Lemma same_except_insert written pub pub' k v :
  k ∈ written → same_except written pub pub' →
  same_except written pub (<[k := v]> pub').
Proof.
  intros Hk Hs j Hj. rewrite lookup_insert_ne; [by apply Hs |].
  intros ->. by apply Hj.
Qed.

Lemma same_except_trans written pub1 pub2 pub3 :
  same_except written pub1 pub2 → same_except written pub2 pub3 →
  same_except written pub1 pub3.
Proof. intros H12 H23 k Hk. rewrite (H23 k Hk). by apply H12. Qed.

Lemma compute_imputed_metrics_frame now publications :
  Forall2 (same_except ["RCR_imputed"]) publications
    (compute_imputed_metrics now publications).
Proof.
  induction publications as [|pub rest IH]; simpl; constructor; [| done].
  apply same_except_insert; [set_solver | apply same_except_refl].
Qed.

End Imputer.

(** ** Citation Enricher *)

Section Enricher.
Context `{PyNum}.
Implicit Types (pub : gmap string pyval) (publications : list (gmap string pyval)).
Implicit Types (icite : icite_oracle).

Lemma set_citation_frame cc rcr fcr pub :
  same_except citation_fields pub (set_citation cc rcr fcr pub).
Proof.
  unfold set_citation, citation_fields.
  repeat (apply same_except_insert; [set_solver |]). apply same_except_refl.
Qed.

Lemma set_citation_fields cc rcr fcr pub :
  has_citation_fields (set_citation cc rcr fcr pub).
Proof.
  intros k Hk. unfold set_citation, citation_fields in *.
  repeat (apply elem_of_cons in Hk as [-> | Hk]); [| | | by apply elem_of_nil in Hk];
    simplify_map_eq; eauto.
Qed.

Lemma apply_citation_map_frame citation_map pub :
  same_except citation_fields pub (apply_citation_map citation_map pub).
Proof.
  unfold apply_citation_map, set_empty_citation.
  repeat case_match; auto using set_citation_frame, same_except_refl.
Qed.

Lemma add_empty_if_missing_frame pub :
  same_except citation_fields pub (add_empty_if_missing pub).
Proof.
  unfold add_empty_if_missing, set_empty_citation.
  case_match; auto using set_citation_frame, same_except_refl.
Qed.

Lemma enrich_batch_frame icite k batch_pmids publications :
  Forall2 (same_except citation_fields) publications
    (enrich_batch icite k batch_pmids publications).
Proof.
  unfold enrich_batch.
  destruct (icite k _); apply Forall2_fmap_r, Forall_Forall2_diag, Forall_forall;
    intros pub _; auto using apply_citation_map_frame, add_empty_if_missing_frame.
Qed.

Lemma enrich_batches_frame icite k batches publications :
  Forall2 (same_except citation_fields) publications
    (enrich_batches icite k batches publications).
Proof.
  revert k publications. induction batches as [|batch rest IH]; intros k publications.
  - apply Forall_Forall2_diag, Forall_forall. intros pub _. apply same_except_refl.
  - simpl. eapply Forall2_trans; [| apply enrich_batch_frame | apply IH].
    intros pub1 pub2 pub3. apply same_except_trans.
Qed.

Lemma fetch_citation_counts_frame icite publications enriched :
  fetch_citation_counts icite publications = Some enriched →
  Forall2 (same_except citation_fields) publications enriched.
Proof.
  unfold fetch_citation_counts. intros Hf.
  destruct (mapM pub_pmid publications) as [pmids|]; simplify_eq/=.
  apply enrich_batches_frame.
Qed.

(** The call returns exactly when every publication holds a [str] PMID. *)
Lemma fetch_citation_counts_returns icite publications :
  is_Some (fetch_citation_counts icite publications)
  ↔ Forall (λ pub, is_Some (pub_pmid pub)) publications.
Proof.
  unfold fetch_citation_counts. rewrite <- (mapM_is_Some pub_pmid).
  destruct (mapM pub_pmid publications); simpl; [| done].
  split; intros _; by eexists.
Qed.

Lemma pub_pmid_same_except pub pub' :
  same_except citation_fields pub pub' → pub_pmid pub' = pub_pmid pub.
Proof.
  intros Hs. unfold pub_pmid. rewrite (Hs "PMID"); [done |].
  unfold citation_fields. rewrite !not_elem_of_cons.
  repeat split; try done. apply not_elem_of_nil.
Qed.

Lemma apply_citation_map_fields citation_map pub :
  is_Some (pub_pmid pub) → has_citation_fields (apply_citation_map citation_map pub).
Proof.
  intros [pmid Hp]. unfold apply_citation_map, set_empty_citation. rewrite Hp.
  case_match; apply set_citation_fields.
Qed.

Lemma add_empty_if_missing_fields pub :
  pub !! "Citation_Count" = None ∨ has_citation_fields pub →
  has_citation_fields (add_empty_if_missing pub).
Proof.
  unfold add_empty_if_missing, set_empty_citation. intros [Hn | Hf].
  - rewrite Hn. apply set_citation_fields.
  - case_match; [done | apply set_citation_fields].
Qed.

Lemma enrich_batch_fields icite k batch_pmids publications :
  Forall enrichable publications →
  Forall (λ pub, is_Some (pub_pmid pub) ∧ has_citation_fields pub)
    (enrich_batch icite k batch_pmids publications).
Proof.
  intros Hall. unfold enrich_batch.
  destruct (icite k _); apply Forall_fmap; eapply Forall_impl; try exact Hall;
    intros pub [Hp Hc]; simpl; split;
    try (by apply apply_citation_map_fields);
    try (by apply add_empty_if_missing_fields).
  - rewrite (pub_pmid_same_except pub); [done | apply apply_citation_map_frame].
  - rewrite (pub_pmid_same_except pub); [done | apply add_empty_if_missing_frame].
  - rewrite (pub_pmid_same_except pub); [done | apply add_empty_if_missing_frame].
Qed.

Lemma enrich_batches_fields icite k batches publications :
  Forall (λ pub, is_Some (pub_pmid pub) ∧ has_citation_fields pub) publications →
  Forall (λ pub, is_Some (pub_pmid pub) ∧ has_citation_fields pub)
    (enrich_batches icite k batches publications).
Proof.
  revert k publications. induction batches as [|batch rest IH];
    intros k publications Hall; [done |].
  simpl. apply IH, enrich_batch_fields.
  eapply Forall_impl; [exact Hall |]. intros pub [Hp Hc]. split; auto.
Qed.

Lemma chunks_nonempty {A} size (l : list A) : l ≠ [] → chunks size l ≠ [].
Proof. destruct l; [done |]. intros _. unfold chunks. simpl. done. Qed.

Lemma mapM_pub_pmid_nonempty publications pmids :
  mapM pub_pmid publications = Some pmids → publications ≠ [] → pmids ≠ [].
Proof.
  intros Hm Hne ->. apply length_mapM in Hm. destruct publications; [done |].
  simpl in Hm. lia.
Qed.

Lemma citation_map_of_snoc items item :
  citation_map_of (items ++ [item])%list
  = <[py_str (get_or item "pmid" (VStr "")) := cite_data_of item]> (citation_map_of items).
Proof. unfold citation_map_of. by rewrite foldl_snoc. Qed.






End Enricher.

(** ** The claims on the Imputer and the Enricher *)

Section ImputerClaims.
Context `{PyNum}.
Implicit Types (pub : gmap string pyval) (publications : list (gmap string pyval)).

(** What the code does, case by case: for every record
    [compute_imputed_metrics] processes, [RCR_imputed] is set to the value
    [imputed_impact] describes: with a truthy [RCR], [float(RCR)] when that
    conversion succeeds and [1.5] when it fails; with a falsy [RCR] (missing,
    [None], empty, or zero) and truthy [Year] and [Citation_Count],
    [Citation_Count / (now - year)] when the difference is positive,
    [Citation_Count + 1] when it is not, and [0] when the block raises; and
    [0] when [Year] or [Citation_Count] is falsy. No other field of the
    record changes its value. *)
Theorem imputed_impact_by_cases now publications i pub :
  publications !! i = Some pub →
  ∃ v, compute_imputed_metrics now publications !! i
         = Some (<["RCR_imputed" := v]> pub)
       ∧ imputed_impact now pub v
       ∧ ∀ w, imputed_impact now pub w → w = v.
Proof.
  intros Hi. exists (rcr_imputed now pub). split_and!.
  - rewrite compute_imputed_metrics_fmap, list_lookup_fmap, Hi. done.
  - apply rcr_imputed_spec.
  - intros w Hw. eapply imputed_impact_functional; [exact Hw | apply rcr_imputed_spec].
Qed.

(** A present impact ratio that is not a zero is authoritative, as the
    specification says of every present ratio: the record gets
    [float(RCR)], or [1.5] when the conversion fails. *)
Lemma nonzero_rcr_is_authoritative now pub :
  truthy (get pub "RCR") = true →
  rcr_imputed now pub
  = match py_float (get pub "RCR") with
    | Some f => VFloat f
    | None => VFloat float_1_5
    end.
Proof. intros Ht. unfold rcr_imputed. by rewrite rcr_test, Ht. Qed.

(** C6: the Imputer is idempotent. A second run over records that already
    carry [RCR_imputed] leaves every record, and so every [RCR_imputed], as
    the first run made it: the value is derived from [RCR], [Year] and
    [Citation_Count] and the earlier [RCR_imputed] is never read. *)
Theorem compute_imputed_metrics_idempotent now publications :
  compute_imputed_metrics now (compute_imputed_metrics now publications)
  = compute_imputed_metrics now publications
  ∧ ∀ pub earlier,
      rcr_imputed now (<["RCR_imputed" := earlier]> pub) = rcr_imputed now pub.
Proof.
  split; [| intros pub earlier; apply rcr_imputed_insert].
  induction publications as [|pub rest IH]; simpl; [done |].
  rewrite IH, rcr_imputed_insert, insert_insert_eq. done.
Qed.

End ImputerClaims.

Section EnricherClaims.
Context `{PyNum}.
Implicit Types (pub : gmap string pyval) (publications : list (gmap string pyval)).
Implicit Types (icite : icite_oracle).

(** A normalizer field is none of the four fields the two stages write. *)
Lemma normalizer_field_not_written k :
  k ∈ normalizer_fields → k ∉ (citation_fields ++ ["RCR_imputed"])%list.
Proof.
  unfold normalizer_fields, citation_fields. simpl. intros Hk.
  repeat (apply elem_of_cons in Hk as [-> | Hk]);
    [.. | by apply elem_of_nil in Hk];
    rewrite !not_elem_of_cons; repeat split; try done; apply not_elem_of_nil.
Qed.


(** C10: the Enricher and the Imputer keep the length and the order of the
    list, and a publication leaves them equal to what it was under every
    key but [Citation_Count], [RCR], [Field_Citation_Rate] and
    [RCR_imputed]; in particular under the eight normalizer fields. *)
Theorem enrichment_frame icite now publications enriched :
  fetch_citation_counts icite publications = Some enriched →
  Forall2 (same_except citation_fields) publications enriched
  ∧ (∀ l, Forall2 (same_except ["RCR_imputed"]) l (compute_imputed_metrics now l))
  ∧ length (compute_imputed_metrics now enriched) = length publications
  ∧ ∀ i pub out k,
      publications !! i = Some pub →
      compute_imputed_metrics now enriched !! i = Some out →
      k ∈ normalizer_fields → out !! k = pub !! k.
Proof.
  intros Hf.
  pose proof (fetch_citation_counts_frame _ _ _ Hf) as H1.
  pose proof (compute_imputed_metrics_frame now enriched) as H2.
  split_and!; [done | apply compute_imputed_metrics_frame | |].
  - rewrite <- (Forall2_length _ _ _ H2). symmetry. by eapply Forall2_length.
  - intros i pub out k Hi Ho Hk.
    destruct (Forall2_lookup_l _ _ _ _ _ H1 Hi) as (mid & Hm & Hs1).
    pose proof (Forall2_lookup_lr _ _ _ _ _ _ H2 Hm Ho) as Hs2.
    pose proof (normalizer_field_not_written k Hk) as Hnot.
    rewrite not_elem_of_app in Hnot. destruct Hnot as [Hn1 Hn2].
    rewrite (Hs2 k Hn2). by apply Hs1.
Qed.

(** After a lookup that succeeds, a publication's citation fields come
    from that response alone: one whose PMID the response does not list is
    reset to the empty values, whatever an earlier batch had stored. *)
Lemma enrich_batch_ok_unlisted icite k batch_pmids publications items i pub pmid :
  icite k (join "," batch_pmids) = LookupOk items →
  publications !! i = Some pub →
  pub_pmid pub = Some pmid →
  citation_map_of items !! pmid = None →
  enrich_batch icite k batch_pmids publications !! i = Some (set_empty_citation pub).
Proof.
  intros Hok Hi Hp Hm. unfold enrich_batch. rewrite Hok, list_lookup_fmap, Hi. simpl.
  unfold apply_citation_map. by rewrite Hp, Hm.
Qed.

End EnricherClaims.

(** Runs of the code on the concrete inputs. *)
Section Runs.
#[local] Existing Instance Double.num.

(** The scenarios of the specification, run on the code in the year 2025. *)
Example scenario_velocity :
  rcr_imputed 2025 (<["RCR" := VStr ""]> (<["Citation_Count" := VInt 10]>
                      (Example.publication "1" "2020")))
  = VFloat 2%float.
Proof. reflexivity. Qed.

(** [0x1.bd70a3d70a3d7p-1] is the double nearest to 0.87. *)
Example scenario_authoritative :
  rcr_imputed 2025 (<["RCR" := VStr "0.87"]> (Example.publication "1" "2020"))
  = VFloat 0x1.bd70a3d70a3d7p-1%float.
Proof. reflexivity. Qed.

Example scenario_current_year :
  rcr_imputed 2025 (<["Citation_Count" := VInt 3]> (Example.publication "1" "2025"))
  = VInt 4.
Proof. reflexivity. Qed.

Example scenario_corrupt :
  rcr_imputed 2025 (<["RCR" := VStr "n/a"]> (Example.publication "1" "2020"))
  = VFloat 1.5%float.
Proof. reflexivity. Qed.

Lemma imputed_impact_by_cases_witness :
  ∃ v, compute_imputed_metrics 2025 [Example.zero_rcr] !! 0%nat
         = Some (<["RCR_imputed" := v]> Example.zero_rcr)
       ∧ imputed_impact 2025 Example.zero_rcr v
       ∧ ∀ w, imputed_impact 2025 Example.zero_rcr w → w = v.
Proof. apply (imputed_impact_by_cases 2025 [Example.zero_rcr] 0). reflexivity. Defined.

(** C1 fails on the code. An impact ratio of [0.0] is present and
    non-empty and [float] converts it, so the record is owed
    [float(RCR) = 0.0]. Line 275 tests truthiness, a zero is falsy, and the
    record goes to the branch the comments at lines 317 and 320 keep for
    missing ratios: it gets the estimate, 10 citations over 5 years. The
    same record with the ratio [1.5] keeps its ratio. *)
Theorem zero_rcr_gets_the_estimate :
  rcr_present Example.zero_rcr
  ∧ py_float (get Example.zero_rcr "RCR") = Some 0%float
  ∧ compute_imputed_metrics 2025 [Example.zero_rcr]
    = [<["RCR_imputed" := VFloat 2%float]> Example.zero_rcr]
  ∧ rcr_imputed 2025 (<["RCR" := VFloat 1.5%float]> Example.zero_rcr)
    = VFloat 1.5%float.
Proof. split_and!; [by exists (Double.val 0%float) | reflexivity ..]. Qed.


Lemma enrichment_frame_witness :
  Forall2 (same_except citation_fields) [Example.publication "1" "2020"]
    [Example.enriched_one]
  ∧ (∀ l, Forall2 (same_except ["RCR_imputed"]) l (compute_imputed_metrics 2025 l))
  ∧ length (compute_imputed_metrics 2025 [Example.enriched_one])
    = length [Example.publication "1" "2020"]
  ∧ ∀ i pub out k,
      [Example.publication "1" "2020"] !! i = Some pub →
      compute_imputed_metrics 2025 [Example.enriched_one] !! i = Some out →
      k ∈ normalizer_fields → out !! k = pub !! k.
Proof.
  apply (enrichment_frame Example.icite_up 2025 [Example.publication "1" "2020"]).
  reflexivity.
Defined.

(** C4 fails on the code. With 1001 publications the identifiers go out
    in two batches, and iCite answers both with an entry for every
    requested pmid. The first batch stores 7 citations in the first
    publication; the loop over the second response runs over all 1001
    publications and resets the first one to the empty values. Only the
    publication of the last batch keeps its count. *)
Theorem later_batch_resets_earlier_values :
  let first_batch := pretty <$> seq 1 1000 in
  let second_batch := [pretty 1001%nat] in
  (pmids ← mapM pub_pmid Example.thousand_and_one;
   Some (chunks citation_batch_size pmids)) = Some [first_batch; second_batch]
  ∧ Example.field_at 0 "Citation_Count"
      (enrich_batches Example.icite_up 0 [first_batch] Example.thousand_and_one)
    = Some (VInt 7)
  ∧ Example.field_at 0 "Citation_Count"
      <$> fetch_citation_counts Example.icite_up Example.thousand_and_one
    = Some (Some (VStr ""))
  ∧ Example.field_at 1000 "Citation_Count"
      <$> fetch_citation_counts Example.icite_up Example.thousand_and_one
    = Some (Some (VInt 7)).
Proof. repeat split; reflexivity. Qed.

End Runs.

(** ** The sort by year *)

Section Sorting.
Context `{PyNum}.
Implicit Types (pub : gmap string pyval) (publications : list (gmap string pyval)).

Lemma string_ltb_false a b : String.ltb a b = false → String.leb b a = true.
Proof.
  unfold String.ltb, String.leb. rewrite (String.compare_antisym b a).
  by destruct (String.compare a b).
Qed.

Lemma string_ltb_leb a b : String.ltb a b = true → String.leb a b = true.
Proof. unfold String.ltb, String.leb. by destruct (String.compare a b). Qed.

Lemma string_ltb_neq a b : String.ltb a b = true → a ≠ b.
Proof.
  unfold String.ltb. intros Hlt ->.
  pose proof (proj2 (String_as_OT.cmp_eq b b) eq_refl) as Heq.
  unfold String_as_OT.cmp in Heq. by rewrite Heq in Hlt.
Qed.

Lemma string_leb_trans a b c :
  String.leb a b = true → String.leb b c = true → String.leb a c = true.
Proof.
  unfold String.leb. intros Hab Hbc.
  destruct (String.compare a b) eqn:Eab; [| | done].
  - apply String_as_OT.cmp_eq in Eab as ->. done.
  - destruct (String.compare b c) eqn:Ebc; [| | done].
    + apply String_as_OT.cmp_eq in Ebc as <-. by rewrite Eab.
    + apply String_as_OT.cmp_lt in Eab, Ebc.
      pose proof (String_as_OT.lt_trans _ _ _ Eab Ebc) as Hac.
      apply String_as_OT.cmp_lt in Hac. unfold String_as_OT.cmp in Hac. by rewrite Hac.
Qed.

Lemma insert_desc_perm pub sorted : insert_desc pub sorted ≡ₚ pub :: sorted.
Proof.
  induction sorted as [|p rest IH]; simpl; [done |].
  case_match; [| done]. rewrite IH. apply Permutation_swap.
Qed.

Lemma sort_by_year_desc_perm publications :
  sort_by_year_desc publications ≡ₚ publications.
Proof.
  induction publications as [|pub rest IH]; simpl; [done |].
  rewrite insert_desc_perm. by rewrite IH.
Qed.

Lemma insert_desc_sorted pub sorted :
  StronglySorted year_desc sorted → StronglySorted year_desc (insert_desc pub sorted).
Proof.
  induction 1 as [|p rest Hs IH Hall]; simpl; [repeat constructor |].
  destruct (String.ltb (year_key pub) (year_key p)) eqn:Hlt.
  - constructor; [done |]. rewrite insert_desc_perm. constructor; [| done].
    by apply string_ltb_leb.
  - apply string_ltb_false in Hlt. constructor; [by constructor |].
    constructor; [done |]. eapply Forall_impl; [exact Hall |].
    intros q Hq. unfold year_desc in *. by eapply string_leb_trans.
Qed.

Lemma sort_by_year_desc_sorted publications :
  StronglySorted year_desc (sort_by_year_desc publications).
Proof.
  induction publications as [|pub rest IH]; simpl; [constructor |].
  by apply insert_desc_sorted.
Qed.

(** Stability: the publications of one year keep their order. *)
Lemma insert_desc_filter y pub sorted :
  filter (λ p, year_key p = y) (insert_desc pub sorted)
  = filter (λ p, year_key p = y) (pub :: sorted).
Proof.
  induction sorted as [|p rest IH]; simpl; [done |].
  destruct (String.ltb (year_key pub) (year_key p)) eqn:Hlt; [| done].
  apply string_ltb_neq in Hlt.
  rewrite (filter_cons _ p), IH, !(filter_cons _ pub), (filter_cons _ p).
  repeat case_decide; congruence.
Qed.

Lemma sort_by_year_desc_stable y publications :
  filter (λ p, year_key p = y) (sort_by_year_desc publications)
  = filter (λ p, year_key p = y) publications.
Proof.
  induction publications as [|pub rest IH]; simpl; [done |].
  rewrite insert_desc_filter, !(filter_cons _ pub), IH. done.
Qed.

Lemma year_key_same_except pub pub' :
  same_except citation_fields pub pub' → year_key pub' = year_key pub.
Proof.
  intros Hs. unfold year_key, get_or. rewrite (Hs "Year"); [done |].
  unfold citation_fields. rewrite !not_elem_of_cons.
  repeat split; try done. apply not_elem_of_nil.
Qed.

Lemma year_desc_enriched sorted enriched :
  Forall2 (same_except citation_fields) sorted enriched →
  StronglySorted year_desc sorted → StronglySorted year_desc enriched.
Proof.
  intros Hf. induction Hf as [|p q l k Hpq Hlk IH]; [done |].
  intros Hs. apply StronglySorted_inv in Hs as [Hs Hall].
  constructor; [by apply IH |].
  apply year_key_same_except in Hpq. clear IH Hs.
  induction Hlk as [|p' q' l k Hpq' Hlk IH]; [done |].
  apply Forall_cons_1 in Hall as [Hp' Hall]. constructor; [| by apply IH].
  apply year_key_same_except in Hpq'. unfold year_desc in *. by rewrite Hpq, Hpq'.
Qed.

End Sorting.

(** ** Record Normalizer and Author-Position Filter *)

Section Normalizer.
Context `{PyNum}.
Implicit Types (pub : gmap string pyval) (publications : list (gmap string pyval)).

Lemma split_from_word word s : word ≠ "" → split_from word s ≠ [].
Proof.
  revert word. induction s as [|c s IH]; intros word Hw; simpl.
  - by destruct word.
  - destruct (is_space c).
    + by destruct word.
    + apply IH. by destruct word.
Qed.

Lemma lstrip_head s :
  lstrip s = "" ∨ ∃ c t, lstrip s = String c t ∧ is_space c = false.
Proof.
  induction s as [|c s IH]; simpl; [by left |].
  destruct (is_space c) eqn:Hc; [done |]. right. by exists c, s.
Qed.

Lemma rstrip_head c t :
  is_space c = false → ∃ r, rstrip (String c t) = String c r.
Proof. intros Hc. simpl. rewrite Hc. destruct (rstrip t); eauto. Qed.

(** A stripped, non-empty author name has a first token. *)
Lemma split_strip_nonempty s :
  strip s ≠ "" → ∃ word rest, split (strip s) = word :: rest.
Proof.
  unfold strip. intros Hne.
  destruct (lstrip_head s) as [He | (c & t & He & Hc)]; rewrite He in *.
  - by destruct Hne.
  - destruct (rstrip_head c t Hc) as [r Hr]. rewrite Hr.
    unfold split. simpl. rewrite Hc. change ("" +:+ String c "") with (String c "").
    pose proof (split_from_word (String c "") r ltac:(done)) as Hs.
    destruct (split_from (String c "") r) as [|word rest]; [done |]. eauto.
Qed.

(** The three outcomes of the year extraction, and the one that raises. *)
Lemma extract_year_structured pd y :
  Year pd = Some y → y ≠ "" → extract_year pd = Some y.
Proof.
  intros Hy Hne. unfold extract_year. rewrite Hy. simpl.
  by rewrite (proj2 (String.eqb_neq y "") Hne).
Qed.

Lemma extract_year_medline pd medline_date word rest :
  Year pd = None ∨ Year pd = Some "" →
  MedlineDate pd = Some medline_date →
  split medline_date = word :: rest →
  extract_year pd = Some word.
Proof.
  intros Hy Hm Hs. unfold extract_year.
  destruct Hy as [-> | ->]; simpl; by rewrite Hm, Hs.
Qed.

Lemma extract_year_absent pd :
  Year pd = None ∨ Year pd = Some "" →
  MedlineDate pd = None →
  extract_year pd = Some "".
Proof.
  intros Hy Hm. unfold extract_year.
  destruct Hy as [-> | ->]; simpl; by rewrite Hm.
Qed.

Lemma extract_year_blank pd medline_date :
  Year pd = None ∨ Year pd = Some "" →
  MedlineDate pd = Some medline_date →
  split medline_date = [] →
  extract_year pd = None.
Proof.
  intros Hy Hm Hs. unfold extract_year.
  destruct Hy as [-> | ->]; simpl; by rewrite Hm, Hs.
Qed.

(** The year extraction fails only on a blank [MedlineDate]. *)
Lemma extract_year_raises pd :
  extract_year pd = None
  ↔ (Year pd = None ∨ Year pd = Some "")
    ∧ ∃ medline_date, MedlineDate pd = Some medline_date ∧ split medline_date = [].
Proof.
  split.
  - unfold extract_year. destruct (Year pd) as [y|] eqn:Hy; simpl.
    + destruct (String.eqb y "") eqn:He; [| done].
      apply String.eqb_eq in He as ->.
      destruct (MedlineDate pd) as [m|]; [| done].
      destruct (split m) eqn:Hs; [| done]. eauto.
    + destruct (MedlineDate pd) as [m|]; [| done].
      destruct (split m) eqn:Hs; [| done]. eauto.
  - intros (Hy & m & Hm & Hs). by eapply extract_year_blank.
Qed.

(** The position filter on a list whose entries all have a display name:
    the index of the match is compared with the number of entries. *)
Lemma displayable_length author_list :
  Forall displayable author_list →
  length (omap author_name_of author_list) = length author_list.
Proof.
  induction 1 as [|a l [name Ha] Hl IH]; csimpl; [done |].
  rewrite Ha. csimpl. by rewrite IH.
Qed.

Lemma author_position_none search_last_name author_list :
  author_position search_last_name author_list = None
  ↔ Forall (λ a, upper <$> LastName a ≠ Some search_last_name) author_list.
Proof.
  unfold author_position. rewrite fmap_None. apply list_find_None.
Qed.

Lemma author_position_some search_last_name author_list i :
  author_position search_last_name author_list = Some i
  ↔ ∃ a, author_list !! i = Some a
         ∧ upper <$> LastName a = Some search_last_name
         ∧ ∀ j b, author_list !! j = Some b → j < i →
                  upper <$> LastName b ≠ Some search_last_name.
Proof.
  unfold author_position. rewrite fmap_Some. split.
  - intros ([j a] & Hf & ->). apply list_find_Some in Hf. eauto.
  - intros (a & Ha). exists (i, a). split; [| done]. by apply list_find_Some.
Qed.

Lemma position_accepts_spec i num_authors :
  position_accepts (Some i) num_authors = true ↔ i < 2 ∨ (Z.of_nat num_authors - 2 ≤ Z.of_nat i)%Z.
Proof.
  unfold position_accepts. rewrite orb_true_iff, Z.ltb_lt, Z.leb_le. lia.
Qed.

(** The publication built from a kept record. *)
Lemma process_record_kept search_last_name filter_author_position rec pub :
  process_record search_last_name filter_author_position rec = Kept pub →
  ∃ pmid title authors journal year doi abstract,
    pub = pub_info pmid title authors journal year doi abstract.
Proof.
  unfold process_record, need. intros Hk.
  repeat (case_match; try discriminate). injection Hk as <-. eauto 10.
Qed.

(** The sort key of a publication the normalizer built is its year. *)
Lemma pub_info_year_key pmid title authors journal year doi abstract :
  year_key (pub_info pmid title authors journal year doi abstract) = year.
Proof. done. Qed.

Lemma pub_info_enrichable pmid title authors journal year doi abstract :
  enrichable (pub_info pmid title authors journal year doi abstract).
Proof. split; [by exists pmid | by left]. Qed.

Lemma process_records_enrichable search_last_name filter_author_position records :
  Forall enrichable (process_records search_last_name filter_author_position records).
Proof.
  apply Forall_forall. intros pub Hin. unfold process_records in Hin.
  apply list_elem_of_omap in Hin as (rec & _ & Hrec).
  destruct (process_record _ _ rec) as [pub'|] eqn:Hp; simplify_eq.
  apply process_record_kept in Hp as (? & ? & ? & ? & ? & ? & ? & ->).
  apply pub_info_enrichable.
Qed.

End Normalizer.

(** ** Aggregation Pipeline *)

Section Pipeline.
Context `{PyNum}.
Implicit Types (pub : gmap string pyval) (publications : list (gmap string pyval)).
Implicit Types (env : services).

(** The fetch loop appends what each batch contributes, in batch order,
    as long as every fetched response has its [PubmedArticle] key. *)
Lemma fetch_batches_returned env search_last_name filter_author_position
    k batches publications :
  (∀ j b, batches !! j = Some b → efetch env (k + j) (join "," b) ≠ Fetched None) →
  fetch_batches env search_last_name filter_author_position k batches publications
  = Returned (publications ++
      concat (imap (λ j, batch_publications env search_last_name
                           filter_author_position (k + j)) batches))%list.
Proof.
  revert k publications. induction batches as [|batch rest IH];
    intros k publications Hkey; simpl.
  - by rewrite app_nil_r.
  - pose proof (Hkey 0 batch eq_refl) as H0. rewrite Nat.add_0_r in H0.
    assert (Hrest : ∀ j b, rest !! j = Some b →
              efetch env (S k + j) (join "," b) ≠ Fetched None).
    { intros j b Hj. specialize (Hkey (S j) b Hj).
      by replace (S k + j) with (k + S j) by lia. }
    assert (Himap : imap ((λ j, batch_publications env search_last_name
                                  filter_author_position (k + j)) ∘ S) rest
                    = imap (λ j, batch_publications env search_last_name
                                   filter_author_position (S k + j)) rest).
    { apply imap_ext. intros j b _. simpl. f_equal. lia. }
    rewrite Himap. unfold batch_publications at 1. rewrite Nat.add_0_r.
    destruct (efetch env k (join "," batch)) as [e | [records|]]; [| | done].
    + by rewrite (IH (S k) publications Hrest).
    + rewrite (IH (S k) _ Hrest). by rewrite <- app_assoc.
Qed.

Lemma fetch_batches_enrichable env search_last_name filter_author_position
    k batches publications collected :
  Forall enrichable publications →
  fetch_batches env search_last_name filter_author_position k batches publications
  = Returned collected →
  Forall enrichable collected.
Proof.
  revert k publications. induction batches as [|batch rest IH];
    intros k publications Hall Hf; simpl in Hf.
  - by simplify_eq.
  - destruct (efetch env k (join "," batch)) as [e | [records|]]; [| | done].
    + by eapply IH.
    + eapply IH; [| exact Hf]. apply Forall_app. split; [done |].
      apply process_records_enrichable.
Qed.

(** What a returned result is made of. *)
Lemma fetch_author_publications_returned env author_name start_year end_year
    filter_author_position out :
  fetch_author_publications env author_name start_year end_year filter_author_position
  = Returned out →
  ∃ enriched_from,
    fetch_citation_counts (icite env) (sort_by_year_desc enriched_from) = Some out
    ∧ enriched_from
      = collected_publications env author_name start_year end_year filter_author_position
    ∧ Forall enrichable enriched_from.
Proof.
  unfold fetch_author_publications, collected_publications. intros Hr.
  destruct (split author_name) as [|last_name rest]; [done |].
  destruct (esearch env _) as [ids | e]; [| done].
  destruct ids as [|id ids].
  - simplify_eq. exists []. by repeat split.
  - destruct (collect_publications env _ _ (id :: ids)) as [collected | e] eqn:Hc;
      [| done].
    destruct (fetch_citation_counts _ _) as [enriched|] eqn:Hf; [| done].
    simplify_eq. exists collected. repeat split; [done |].
    by eapply (fetch_batches_enrichable _ _ _ _ _ []).
Qed.

(** A failed search leaves the function as the exception it raised. *)
Lemma search_failure_propagates env author_name start_year end_year
    filter_author_position last_name rest e :
  split author_name = last_name :: rest →
  esearch env (search_term author_name start_year end_year) = Raised e →
  fetch_author_publications env author_name start_year end_year filter_author_position
  = Raised e.
Proof. intros Hs He. unfold fetch_author_publications. by rewrite Hs, He. Qed.

End Pipeline.

(** ** The claims on the pipeline *)

Section PipelineClaims.
Context `{PyNum}.
Implicit Types (pub : gmap string pyval) (publications : list (gmap string pyval)).
Implicit Types (env : services).

(** Where the Author-Position Filter agrees with first-two-or-last-two:
    on a list whose entries all get a display name, a match at index [i]
    is accepted exactly when [i < 2] or [i >= n - 2], [n] the number of
    entries; and a list without a match is rejected. *)
Lemma position_filter_on_displayable search_last_name author_list i :
  Forall displayable author_list →
  author_position search_last_name author_list = Some i →
  position_accepts (author_position search_last_name author_list)
    (length (omap author_name_of author_list)) = true
  ↔ i < 2 ∨ (Z.of_nat (length author_list) - 2 ≤ Z.of_nat i)%Z.
Proof.
  intros Hd Hi. rewrite Hi, (displayable_length _ Hd). apply position_accepts_spec.
Qed.

Lemma position_filter_unmatched search_last_name author_list num_authors :
  Forall (λ a, upper <$> LastName a ≠ Some search_last_name) author_list →
  position_accepts (author_position search_last_name author_list) num_authors = false.
Proof. intros Hn. apply author_position_none in Hn. by rewrite Hn. Qed.

(** C5: the returned sequence is sorted by [Year], largest first under the
    lexical order on strings, and for every year the publications of that
    year come in the order in which the fetch loop collected them: they
    are the collected ones, with the citation fields added. *)
Theorem result_sorted_by_year_stable env author_name start_year end_year
    filter_author_position out :
  fetch_author_publications env author_name start_year end_year filter_author_position
  = Returned out →
  StronglySorted year_desc out
  ∧ ∀ y, Forall2 (same_except citation_fields)
           (filter (λ p, year_key p = y)
              (collected_publications env author_name start_year end_year
                 filter_author_position))
           (filter (λ p, year_key p = y) out).
Proof.
  intros Hr.
  apply fetch_author_publications_returned in Hr as (collected & Hf & <- & _).
  apply fetch_citation_counts_frame in Hf. split.
  - eapply year_desc_enriched; [exact Hf | apply sort_by_year_desc_sorted].
  - intros y. rewrite <- (sort_by_year_desc_stable y collected).
    eapply Forall2_filter; [| exact Hf].
    intros p q Hpq. by rewrite (year_key_same_except p q Hpq).
Qed.

(** C7: when the detail fetch of one batch raises, the pipeline still
    returns. The failed batch contributes no publication, every
    publication normalized from the records of another batch is in the
    returned sequence, with its citation fields added, and the sequence
    holds nothing else. *)
Theorem failed_fetch_batch_is_skipped env author_name start_year end_year
    filter_author_position last_name rest ids k batch e :
  split author_name = last_name :: rest →
  esearch env (search_term author_name start_year end_year) = Returned ids →
  chunks fetch_batch_size ids !! k = Some batch →
  efetch env k (join "," batch) = FetchRaised e →
  (∀ j b, chunks fetch_batch_size ids !! j = Some b →
          efetch env j (join "," b) ≠ Fetched None) →
  ∃ out,
    fetch_author_publications env author_name start_year end_year filter_author_position
    = Returned out
    ∧ batch_publications env (upper last_name) filter_author_position k batch = []
    ∧ length out
      = length (concat (imap (batch_publications env (upper last_name)
                                filter_author_position)
                          (chunks fetch_batch_size ids)))
    ∧ ∀ j b pub,
        chunks fetch_batch_size ids !! j = Some b →
        pub ∈ batch_publications env (upper last_name) filter_author_position j b →
        ∃ q, q ∈ out ∧ same_except citation_fields pub q.
Proof.
  intros Hs He Hk Hraise Hkey.
  set (contributed := concat (imap (batch_publications env (upper last_name)
                                      filter_author_position)
                                (chunks fetch_batch_size ids))).
  assert (Hcol : collect_publications env (upper last_name) filter_author_position ids
                 = Returned contributed).
  { unfold collect_publications. by rewrite fetch_batches_returned. }
  assert (Hen : Forall enrichable (sort_by_year_desc contributed)).
  { rewrite sort_by_year_desc_perm.
    eapply (fetch_batches_enrichable _ _ _ _ _ []); [done | exact Hcol]. }
  destruct (proj2 (fetch_citation_counts_returns (icite env)
                     (sort_by_year_desc contributed))) as [out Hout].
  { eapply Forall_impl; [exact Hen |]. by intros pub [? _]. }
  pose proof (fetch_citation_counts_frame _ _ _ Hout) as Hframe.
  exists out. split_and!.
  - unfold fetch_author_publications. rewrite Hs, He.
    destruct ids as [|id ids']; [done |]. by rewrite Hcol, Hout.
  - unfold batch_publications. by rewrite Hraise.
  - rewrite <- (Forall2_length _ _ _ Hframe).
    by rewrite sort_by_year_desc_perm.
  - intros j b pub Hj Hin.
    assert (Hc : pub ∈ sort_by_year_desc contributed).
    { rewrite sort_by_year_desc_perm. apply list_elem_of_In, in_concat.
      exists (batch_publications env (upper last_name) filter_author_position j b).
      split; apply list_elem_of_In; [| done].
      by apply (elem_of_lookup_imap_2
                  (batch_publications env (upper last_name) filter_author_position)). }
    apply list_elem_of_lookup in Hc as [i Hi].
    destruct (Forall2_lookup_l _ _ _ _ _ Hframe Hi) as (q & Hq & Hpq).
    exists q. split; [| done]. apply list_elem_of_lookup. eauto.
Qed.

(** C8: when the literature search raises, [fetch_author_publications]
    raises the same exception, returning no list, and the [/results] route
    answers with the error page for it in place of the publication list. *)
Theorem search_failure_reaches_the_user env now args start stop e :
  strip (default "" (args !! "author")) ≠ "" →
  year_arg (strip (default "" (args !! "start_year"))) = Returned start →
  year_arg (strip (default "" (args !! "end_year"))) = Returned stop →
  esearch env (search_term (strip (default "" (args !! "author"))) start stop) = Raised e →
  fetch_author_publications env (strip (default "" (args !! "author"))) start stop
    (String.eqb (default "1" (args !! "filter_position")) "1") = Raised e
  ∧ results env now args = RenderError e.
Proof.
  intros Ha Hstart Hstop He.
  destruct (split_strip_nonempty _ Ha) as (word & rest & Hs).
  pose proof (search_failure_propagates env _ start stop
                (String.eqb (default "1" (args !! "filter_position")) "1")
                word rest e Hs He) as Hf.
  split; [done |]. unfold results.
  rewrite (proj2 (String.eqb_neq _ "") Ha), Hstart, Hstop. by rewrite Hf.
Qed.

End PipelineClaims.

(** Runs of the pipeline on the concrete inputs. *)
Section PipelineRuns.
#[local] Existing Instance Double.num.

Lemma result_sorted_by_year_stable_witness :
  StronglySorted year_desc Example.two_results
  ∧ ∀ y, Forall2 (same_except citation_fields)
           (filter (λ p, year_key p = y)
              (collected_publications Example.second_fetch_fails "Knowles DA"
                 None None true))
           (filter (λ p, year_key p = y) Example.two_results).
Proof.
  apply (result_sorted_by_year_stable Example.second_fetch_fails "Knowles DA"
           None None true).
  reflexivity.
Defined.

Lemma failed_fetch_batch_is_skipped_witness :
  ∃ out,
    fetch_author_publications Example.second_fetch_fails "Knowles DA" None None true
    = Returned out
    ∧ batch_publications Example.second_fetch_fails (upper "Knowles") true 1
        [pretty 101%nat] = []
    ∧ length out
      = length (concat (imap (batch_publications Example.second_fetch_fails
                                (upper "Knowles") true)
                          (chunks fetch_batch_size (pretty <$> seq 1 101))))
    ∧ ∀ j b pub,
        chunks fetch_batch_size (pretty <$> seq 1 101) !! j = Some b →
        pub ∈ batch_publications Example.second_fetch_fails (upper "Knowles") true j b →
        ∃ q, q ∈ out ∧ same_except citation_fields pub q.
Proof.
  apply (failed_fetch_batch_is_skipped Example.second_fetch_fails "Knowles DA"
           None None true "Knowles" ["DA"] (pretty <$> seq 1 101) 1
           [pretty 101%nat] (RemoteError "timed out")).
  - reflexivity.
  - reflexivity.
  - reflexivity.
  - reflexivity.
  - intros j b _. simpl. destruct j; discriminate.
Defined.

Lemma search_failure_reaches_the_user_witness :
  fetch_author_publications Example.search_fails
    (strip (default "" (Example.knowles_query !! "author"))) None None
    (String.eqb (default "1" (Example.knowles_query !! "filter_position")) "1")
  = Raised (RemoteError "HTTP Error 502: Bad Gateway")
  ∧ results Example.search_fails 2025 Example.knowles_query
    = RenderError (RemoteError "HTTP Error 502: Bad Gateway").
Proof.
  apply (search_failure_reaches_the_user Example.search_fails 2025
           Example.knowles_query None None).
  - discriminate.
  - reflexivity.
  - reflexivity.
  - reflexivity.
Defined.

(** C2 fails on the code. The match is looked up in the raw author list,
    but the number of authors is that of the display names, and an entry
    without initials gets none. Five authors, the searched one at index 2,
    the fifth without initials: the index is compared with 4 - 2 and the
    record is kept. With initials on all five it is dropped. *)
Theorem third_of_five_is_accepted :
  author_position (upper "Knowles") Example.five_authors = Some 2%nat
  ∧ length Example.five_authors = 5%nat
  ∧ process_record (upper "Knowles") true
      (Example.raw_record "1" Example.year_2020 Example.five_authors)
    = Kept (pub_info "1" "A title" "Adams A, Baker B, Knowles DA, Clark C"
              "A journal" "2020" "" "")
  ∧ process_record (upper "Knowles") true
      (Example.raw_record "1" Example.year_2020 Example.five_named_authors)
    = Skipped AuthorPosition.
Proof. repeat split; reflexivity. Qed.

(** C9 fails on the code. A record whose [Year] is absent and whose
    [MedlineDate] is blank has no first token: [split()[0]] raises, the
    handler of the record catches it, and the record is dropped. Without
    [MedlineDate] the same record is kept with the empty year, and with a
    dated [MedlineDate] with its first token. *)
Theorem blank_medline_date_drops_record :
  process_record (upper "Knowles") true
    (Example.raw_record "1" Example.blank_medline_date Example.knowles)
  = Skipped RecordError
  ∧ process_record (upper "Knowles") true
      (Example.raw_record "1" Example.no_date Example.knowles)
    = Kept (pub_info "1" "A title" "Knowles DA" "A journal" "" "" "")
  ∧ process_record (upper "Knowles") true
      (Example.raw_record "1" Example.medline_2020 Example.knowles)
    = Kept (pub_info "1" "A title" "Knowles DA" "A journal" "2020" "" "").
Proof. repeat split; reflexivity. Qed.

End PipelineRuns.

(** * Further properties of the code *)

(** ** Batching *)

Section Batching.
Context {A : Type}.
Implicit Types (l : list A).

Lemma chunks_from_concat (fuel size : nat) l :
  (0 < size)%nat → (length l ≤ fuel)%nat → concat (chunks_from fuel size l) = l.
Proof.
  intros Hsize. revert l. induction fuel as [|fuel IH]; intros l Hlen.
  - destruct l; [done | simpl in Hlen; lia].
  - destruct l as [|x l]; [done |].
    change (chunks_from (S fuel) size (x :: l))
      with (take size (x :: l) :: chunks_from fuel size (drop size (x :: l))).
    simpl concat. rewrite IH; [apply take_drop |].
    rewrite length_drop. simpl in *. lia.
Qed.

Lemma chunks_from_sizes (fuel size : nat) l :
  (0 < size)%nat →
  Forall (λ chunk, chunk ≠ [] ∧ (length chunk ≤ size)%nat) (chunks_from fuel size l).
Proof.
  intros Hsize. revert l. induction fuel as [|fuel IH]; intros l; [by destruct l |].
  destruct l as [|x l]; [done |].
  change (chunks_from (S fuel) size (x :: l))
    with (take size (x :: l) :: chunks_from fuel size (drop size (x :: l))).
  constructor; [| apply IH]. split.
  - destruct size; [lia | done].
  - rewrite length_take. lia.
Qed.

End Batching.

Section MoreEnricher.
Context `{PyNum}.
Implicit Types (pub : gmap string pyval) (publications : list (gmap string pyval)).
Implicit Types (icite : icite_oracle).

(** X1: Batching loses, repeats and reorders nothing: the batches of both
    loops, put end to end, are the list that was split; and no batch is
    empty or longer than the batch size. *)
Theorem batches_partition (ids pmids : list string) :
  concat (chunks fetch_batch_size ids) = ids
  ∧ Forall (λ batch, batch ≠ [] ∧ (length batch ≤ 100)%nat) (chunks fetch_batch_size ids)
  ∧ concat (chunks citation_batch_size pmids) = pmids
  ∧ Forall (λ batch, batch ≠ [] ∧ (length batch ≤ 1000)%nat) (chunks citation_batch_size pmids).
Proof.
  unfold chunks, fetch_batch_size, citation_batch_size.
  split_and!; first [by apply chunks_from_concat; lia | by apply chunks_from_sizes; lia].
Qed.

Lemma enrich_batches_app icite k batches1 batches2 publications :
  enrich_batches icite k (batches1 ++ batches2)%list publications
  = enrich_batches icite (k + length batches1) batches2
      (enrich_batches icite k batches1 publications).
Proof.
  revert k publications. induction batches1 as [|b rest IH]; intros k publications; simpl.
  - by rewrite Nat.add_0_r.
  - rewrite IH. f_equal. lia.
Qed.

Lemma set_citation_same_except cc rcr fcr pub pub' :
  same_except citation_fields pub pub' →
  set_citation cc rcr fcr pub' = set_citation cc rcr fcr pub.
Proof.
  intros Hs. apply map_eq. intros k. unfold set_citation.
  destruct (decide (k = "Field_Citation_Rate")) as [-> | H1];
    [by rewrite !lookup_insert_eq |].
  destruct (decide (k = "RCR")) as [-> | H2];
    [by rewrite !(lookup_insert_ne _ "Field_Citation_Rate"), !lookup_insert_eq |].
  destruct (decide (k = "Citation_Count")) as [-> | H3];
    [by rewrite !(lookup_insert_ne _ "Field_Citation_Rate"),
         !(lookup_insert_ne _ "RCR"), !lookup_insert_eq |].
  rewrite !lookup_insert_ne by done. apply Hs.
  unfold citation_fields. rewrite !not_elem_of_cons.
  repeat split; try done. apply not_elem_of_nil.
Qed.

Lemma apply_citation_map_same_except citation_map pub pub' :
  is_Some (pub_pmid pub) →
  same_except citation_fields pub pub' →
  apply_citation_map citation_map pub' = apply_citation_map citation_map pub.
Proof.
  intros [pmid Hp] Hs. unfold apply_citation_map, set_empty_citation.
  rewrite (pub_pmid_same_except _ _ Hs), Hp.
  case_match; by apply set_citation_same_except.
Qed.

(** X2: When the last lookup of a run succeeds, the run gives what that one
    response gives on the publications as they came in: each gets the values
    listed for its PMID, or the empty values when the response does not list
    it. What the earlier batches stored is overwritten. *)
Theorem last_lookup_decides icite publications pmids earlier last items :
  mapM pub_pmid publications = Some pmids →
  chunks citation_batch_size pmids = (earlier ++ [last])%list →
  icite (length earlier) (join "," last) = LookupOk items →
  fetch_citation_counts icite publications
  = Some (apply_citation_map (citation_map_of items) <$> publications).
Proof.
  intros Hp Hc Hok. unfold fetch_citation_counts. rewrite Hp. simpl. f_equal.
  rewrite Hc, enrich_batches_app. simpl. unfold enrich_batch at 1. rewrite Hok.
  pose proof (enrich_batches_frame icite 0 earlier publications) as Hf.
  assert (Hall : Forall (λ pub, is_Some (pub_pmid pub)) publications).
  { apply (mapM_is_Some pub_pmid). by rewrite Hp. }
  clear Hp Hc Hok. revert Hf Hall.
  generalize (enrich_batches icite 0 earlier publications).
  intros enriched Hf.
  induction Hf as [|pub pub' l l' Hpp Hll IH]; intros Hall; [reflexivity |].
  apply Forall_cons_1 in Hall as [Hpm Hall]. csimpl.
  rewrite (apply_citation_map_same_except _ pub pub' Hpm Hpp). f_equal. by apply IH.
Qed.

Lemma add_empty_if_missing_idemp pub :
  add_empty_if_missing (add_empty_if_missing pub) = add_empty_if_missing pub.
Proof.
  unfold add_empty_if_missing. destruct (pub !! "Citation_Count") eqn:Hc.
  - by rewrite Hc.
  - unfold set_empty_citation, set_citation.
    rewrite (lookup_insert_ne _ "Field_Citation_Rate") by done.
    rewrite (lookup_insert_ne _ "RCR") by done.
    by rewrite lookup_insert_eq.
Qed.

Lemma enrich_batches_all_fail icite k batches publications :
  (∀ j s items, icite j s ≠ LookupOk items) →
  enrich_batches icite k batches (add_empty_if_missing <$> publications)
  = add_empty_if_missing <$> publications.
Proof.
  intros Hfail. revert k. induction batches as [|b rest IH]; intros k; [done |].
  simpl. unfold enrich_batch at 1.
  destruct (icite k (join "," b)) as [items | |] eqn:Hi; [by destruct (Hfail k (join "," b) items) | |];
    rewrite <- list_fmap_compose;
    rewrite (list_fmap_ext (add_empty_if_missing ∘ add_empty_if_missing)
               add_empty_if_missing publications)
      by (intros; simpl; apply add_empty_if_missing_idemp);
    apply IH.
Qed.

Lemma lookups_fail_gives_empty icite publications :
  Forall (λ pub, is_Some (pub_pmid pub)) publications →
  (∀ k s items, icite k s ≠ LookupOk items) →
  fetch_citation_counts icite publications
  = Some (add_empty_if_missing <$> publications).
Proof.
  intros Hall Hfail.
  destruct (proj2 (mapM_is_Some pub_pmid publications) Hall) as [pmids Hp].
  unfold fetch_citation_counts. rewrite Hp. simpl. f_equal.
  destruct publications as [|pub rest]; [by injection Hp as <- |].
  pose proof (chunks_nonempty citation_batch_size pmids
                (mapM_pub_pmid_nonempty _ _ Hp ltac:(done))) as Hc.
  destruct (chunks citation_batch_size pmids) as [|b batches]; [done |].
  change (enrich_batches icite 0 (b :: batches) (pub :: rest))
    with (enrich_batches icite 1 batches (enrich_batch icite 0 b (pub :: rest))).
  assert (Hfirst : enrich_batch icite 0 b (pub :: rest)
                   = add_empty_if_missing <$> pub :: rest).
  { unfold enrich_batch.
    destruct (icite 0%nat (join "," b)) as [items | |] eqn:Hi; [| done | done].
    by destruct (Hfail 0%nat (join "," b) items). }
  rewrite Hfirst. by apply enrich_batches_all_fail.
Qed.

(** X3: When no lookup succeeds, the run leaves every publication that has a
    [Citation_Count] as it is and gives the others the three empty values. *)
Theorem all_lookups_fail icite publications :
  Forall (λ pub, is_Some (pub_pmid pub)) publications →
  (∀ k s items, icite k s ≠ LookupOk items) →
  fetch_citation_counts icite publications
  = Some (add_empty_if_missing <$> publications).
Proof. apply lookups_fail_gives_empty. Qed.

Lemma chunks_single {A} (size : nat) (l : list A) :
  l ≠ [] → (length l ≤ size)%nat → chunks size l = [l].
Proof.
  intros Hne Hlen. unfold chunks. destruct l as [|x l]; [done |].
  change (chunks_from (length (x :: l)) size (x :: l))
    with (take size (x :: l) :: chunks_from (length l) size (drop size (x :: l))).
  rewrite take_ge, drop_ge by done. by destruct (length l).
Qed.

(** X4: Up to a thousand publications are looked up in one request, for all
    their PMIDs in list order, and that one answer decides the result. *)
Theorem single_lookup icite publications pmids :
  publications ≠ [] →
  (length publications ≤ 1000)%nat →
  mapM pub_pmid publications = Some pmids →
  fetch_citation_counts icite publications
  = Some (enrich_batch icite 0 pmids publications).
Proof.
  intros Hne Hlen Hp. unfold fetch_citation_counts. rewrite Hp. simpl.
  rewrite chunks_single; [done | by eapply mapM_pub_pmid_nonempty |].
  apply length_mapM in Hp. unfold citation_batch_size. lia.
Qed.

End MoreEnricher.

Section CitationMap.
Context `{PyNum}.
Implicit Types (pub : gmap string pyval) (publications : list (gmap string pyval)).

(** X5: The entry stored for a PMID is that of the last item of the response
    whose [pmid], written as [str] writes it, is that text; a PMID no item
    carries has no entry. *)
Theorem citation_map_of_lookup items pmid :
  citation_map_of items !! pmid
  = cite_data_of
      <$> last (filter (λ item, py_str (get_or item "pmid" (VStr "")) = pmid) items).
Proof.
  induction items as [|item items IH] using rev_ind; [done |].
  rewrite citation_map_of_snoc, filter_app, filter_cons, filter_nil.
  destruct (decide (py_str (get_or item "pmid" (VStr "")) = pmid)) as [<- | Hne].
  - by rewrite lookup_insert_eq, last_snoc.
  - rewrite lookup_insert_ne by done. by rewrite app_nil_r.
Qed.

End CitationMap.

(** ** More on the Record Normalizer *)

Section MoreNormalizer.
Context `{PyNum}.
Implicit Types (pub : gmap string pyval) (publications : list (gmap string pyval)).
Implicit Types (rec : record) (env : services).

Lemma process_record_unfiltered s s' rec :
  process_record s false rec = process_record s' false rec.
Proof. unfold process_record, need. cbn [andb]. repeat case_match; done. Qed.

Lemma process_record_filter_kept s rec pub :
  process_record s true rec = Kept pub → process_record s false rec = Kept pub.
Proof.
  unfold process_record, need. cbn [andb]. intros Hk.
  repeat (case_match; try discriminate); done.
Qed.

Lemma process_records_sublist s records :
  sublist (process_records s true records) (process_records s false records).
Proof.
  unfold process_records. induction records as [|rec rest IH]; csimpl; [constructor |].
  destruct (process_record s true rec) as [pub | why] eqn:Ht.
  - rewrite (process_record_filter_kept _ _ _ Ht). csimpl. by constructor.
  - destruct (process_record s false rec); csimpl; [by constructor | done].
Qed.

Lemma fetch_batches_sublist env s k batches kept_so_far all_so_far kept :
  sublist kept_so_far all_so_far →
  fetch_batches env s true k batches kept_so_far = Returned kept →
  ∃ all, fetch_batches env s false k batches all_so_far = Returned all
         ∧ sublist kept all.
Proof.
  revert k kept_so_far all_so_far. induction batches as [|batch rest IH];
    intros k kept_so_far all_so_far Hsub Hf; simpl in *.
  - simplify_eq. eauto.
  - destruct (efetch env k (join "," batch)) as [e | [records|]]; [| | done].
    + by eapply IH.
    + eapply IH; [| exact Hf]. apply sublist_app; [done |].
      apply process_records_sublist.
Qed.

(** X6: The position filter only leaves publications out: what the fetch loop
    collects with the filter on is, in the same order, part of what it
    collects with the filter off, and the loop with the filter off returns
    whenever the loop with the filter on does. *)
Theorem position_filter_only_drops env s ids kept :
  collect_publications env s true ids = Returned kept →
  ∃ all, collect_publications env s false ids = Returned all ∧ sublist kept all.
Proof. unfold collect_publications. by apply fetch_batches_sublist. Qed.

Lemma process_record_kept_iff s filter_author_position rec :
  (∃ pub, process_record s filter_author_position rec = Kept pub)
  ↔ well_formed rec
    ∧ (filter_author_position = true →
       position_accepts (author_position s (record_authors rec))
         (length (omap author_name_of (record_authors rec))) = true).
Proof.
  unfold process_record, need, well_formed, record_authors.
  split.
  - intros [pub Hk].
    destruct (MedlineCitation rec) as [citation|]; [| done].
    destruct (Article citation) as [art|] eqn:Ha; [| done].
    destruct (Journal art) as [jour|] eqn:Hj; [| done].
    destruct (JournalIssue jour) as [issue|] eqn:Hi; [| done].
    destruct (PubDate issue) as [pd|] eqn:Hp; [| done].
    destruct (extract_year pd) as [year|] eqn:Hy; [| done].
    destruct (PMID citation) as [pmid|] eqn:Hpm; [| done].
    simpl. rewrite Ha. simpl.
    destruct filter_author_position; simpl in Hk.
    + destruct (position_accepts _ _) eqn:Hacc; [| done]. simpl in Hk.
      destruct (Title jour) as [title|] eqn:Ht; [| done].
      split; [| done]. exists citation, art, jour, issue, pd.
      rewrite Hy, Hpm, Ht. by repeat split.
    + destruct (Title jour) as [title|] eqn:Ht; [| done].
      split; [| done]. exists citation, art, jour, issue, pd.
      rewrite Hy, Hpm, Ht. by repeat split.
  - intros [(citation & art & jour & issue & pd & Hc & Ha & Hj & Hi & Hp
             & [year Hy] & [pmid Hpm] & [title Ht]) Hacc].
    rewrite Hc in *. simpl in *. rewrite Ha in *. simpl in *.
    rewrite Hj. simpl. rewrite Hi. simpl. rewrite Hp. simpl. rewrite Hy. simpl.
    rewrite Hpm. simpl.
    destruct filter_author_position; simpl.
    + rewrite (Hacc eq_refl). simpl. rewrite Ht. simpl. eauto.
    + rewrite Ht. simpl. eauto.
Qed.

(** On a list whose entries all have a display name, the test of lines
    118-128 is the position rule: the first match is among the first two or
    the last two entries. *)
Lemma position_test_is_first_or_last_two s author_list :
  Forall displayable author_list →
  position_accepts (author_position s author_list)
    (length (omap author_name_of author_list)) = true
  ↔ in_first_or_last_two s author_list.
Proof.
  intros Hd. rewrite (displayable_length _ Hd). split.
  - destruct (author_position s author_list) as [i|] eqn:Hi; [| done].
    intros Hacc. apply position_accepts_spec in Hacc.
    apply author_position_some in Hi as (a & Ha & Hm & Hfirst).
    exists i. split; [split; eauto | lia].
  - intros (i & [(a & Ha & Hm) Hfirst] & Hpos).
    assert (Hi : author_position s author_list = Some i)
      by (apply author_position_some; eauto).
    rewrite Hi. apply position_accepts_spec. lia.
Qed.

(** X7: Which records become publications, for a record whose author
    entries all have a display name: those that have every key the loop
    body reads by subscript and a usable publication date, and in which,
    with the filter on, the searched author stands at one of the first two
    or the last two positions. *)
Theorem record_kept_iff s filter_author_position rec :
  Forall displayable (record_authors rec) →
  (∃ pub, process_record s filter_author_position rec = Kept pub)
  ↔ well_formed rec
    ∧ (filter_author_position = true → in_first_or_last_two s (record_authors rec)).
Proof.
  intros Hd. rewrite process_record_kept_iff.
  by rewrite (position_test_is_first_or_last_two s _ Hd).
Qed.

(** X8: The DOI is the text of the first identifier of type [doi], and the
    empty string when the list has none. *)
Theorem doi_is_first_listed before :
  Forall (λ b, IdType b ≠ Some "doi") before →
  extract_doi before = ""
  ∧ ∀ a after, IdType a = Some "doi" →
               extract_doi (before ++ a :: after)%list = id_text a.
Proof.
  intros Hall. unfold extract_doi. split.
  - by rewrite (proj2 (list_find_None (λ a, IdType a = Some "doi") before) Hall).
  - intros a after Ha.
    assert (Hf : list_find (λ a, IdType a = Some "doi") (before ++ a :: after)
                 = Some (length before, a)).
    { apply list_find_Some. split_and!.
      - by rewrite list_lookup_middle.
      - done.
      - intros j b Hj Hlt. rewrite lookup_app_l in Hj by done.
        rewrite Forall_lookup in Hall. by eapply Hall. }
    by rewrite Hf.
Qed.

End MoreNormalizer.

(** ** More on the Aggregation Pipeline *)

Section MorePipeline.
Context `{PyNum}.
Implicit Types (pub : gmap string pyval) (publications : list (gmap string pyval)).
Implicit Types (rec : record) (env : services).

Lemma process_records_built s filter_author_position records :
  Forall built_by_normalizer (process_records s filter_author_position records).
Proof.
  apply Forall_forall. intros pub Hin. unfold process_records in Hin.
  apply list_elem_of_omap in Hin as (rec & _ & Hrec).
  destruct (process_record _ _ rec) as [pub'|] eqn:Hp; simplify_eq.
  by apply process_record_kept in Hp.
Qed.

Lemma fetch_batches_built env s filter_author_position k batches publications collected :
  Forall built_by_normalizer publications →
  fetch_batches env s filter_author_position k batches publications = Returned collected →
  Forall built_by_normalizer collected.
Proof.
  revert k publications. induction batches as [|batch rest IH];
    intros k publications Hall Hf; simpl in Hf.
  - by simplify_eq.
  - destruct (efetch env k (join "," batch)) as [e | [records|]]; [| | done].
    + by eapply IH.
    + eapply IH; [| exact Hf]. apply Forall_app. split; [done |].
      apply process_records_built.
Qed.

Lemma collected_publications_built env author_name start_year end_year
    filter_author_position :
  Forall built_by_normalizer
    (collected_publications env author_name start_year end_year filter_author_position).
Proof.
  unfold collected_publications.
  destruct (split author_name) as [|last_name rest]; [done |].
  destruct (esearch env _) as [ids | e]; [| done].
  destruct (collect_publications env _ _ ids) as [collected | e] eqn:Hc; [| done].
  by eapply (fetch_batches_built _ _ _ _ _ []).
Qed.

Lemma fetch_citation_counts_fields icite publications enriched :
  Forall enrichable publications →
  fetch_citation_counts icite publications = Some enriched →
  Forall has_citation_fields enriched.
Proof.
  intros Hall Hf. unfold fetch_citation_counts in Hf.
  destruct (mapM pub_pmid publications) as [pmids|] eqn:Hp; simplify_eq/=.
  destruct publications as [|pub rest].
  { injection Hp as <-. constructor. }
  pose proof (chunks_nonempty citation_batch_size pmids
                (mapM_pub_pmid_nonempty _ _ Hp ltac:(done))) as Hc.
  destruct (chunks citation_batch_size pmids) as [|batch batches]; [done |]. simpl.
  eapply Forall_impl; [apply enrich_batches_fields, enrich_batch_fields, Hall |].
  by intros q [_ ?].
Qed.

(** What a returned publication is: one the normalizer built, changed
    under the citation fields only, and with all three of them set. *)
Lemma returned_from_normalizer env author_name start_year end_year
    filter_author_position out :
  fetch_author_publications env author_name start_year end_year filter_author_position
  = Returned out →
  Forall (λ q, ∃ p, built_by_normalizer p ∧ same_except citation_fields p q
                    ∧ has_citation_fields q) out.
Proof.
  intros Hr.
  apply fetch_author_publications_returned in Hr as (collected & Hf & Heq & Hen).
  assert (Hb : Forall built_by_normalizer (sort_by_year_desc collected)).
  { rewrite sort_by_year_desc_perm, Heq. apply collected_publications_built. }
  assert (Hen' : Forall enrichable (sort_by_year_desc collected)).
  { by rewrite sort_by_year_desc_perm. }
  pose proof (fetch_citation_counts_fields _ _ _ Hen' Hf) as Hfields.
  pose proof (fetch_citation_counts_frame _ _ _ Hf) as Hframe.
  apply Forall_lookup. intros i q Hq.
  destruct (Forall2_lookup_r _ _ _ _ _ Hframe Hq) as (p & Hp & Hs).
  exists p. split_and!; [| done |].
  - by eapply (proj1 (Forall_lookup _ _) Hb).
  - by eapply (proj1 (Forall_lookup _ _) Hfields).
Qed.

Lemma pub_info_fields pmid title authors journal year doi abstract k :
  k ∈ normalizer_fields →
  ∃ s, pub_info pmid title authors journal year doi abstract !! k = Some (VStr s).
Proof.
  unfold normalizer_fields, pub_info. intros Hk.
  repeat (apply elem_of_cons in Hk as [-> | Hk]); [.. | by apply elem_of_nil in Hk];
    simplify_map_eq; eauto.
Qed.

Lemma citation_field_not_normalizer k : k ∈ normalizer_fields → k ∉ citation_fields.
Proof.
  intros Hk Hc. apply (normalizer_field_not_written k Hk).
  apply elem_of_app. by left.
Qed.

Lemma returned_complete env author_name start_year end_year
    filter_author_position out :
  fetch_author_publications env author_name start_year end_year filter_author_position
  = Returned out →
  Forall complete_publication out.
Proof.
  intros Hr. apply returned_from_normalizer in Hr.
  eapply Forall_impl; [exact Hr |].
  intros q (p & (? & ? & ? & ? & ? & ? & ? & ->) & Hs & Hf). split; [| done].
  intros k Hk. rewrite (Hs k (citation_field_not_normalizer k Hk)).
  by apply pub_info_fields.
Qed.

(** X9: Every publication the pipeline returns is complete: its eight
    normalizer fields hold strings and its three citation fields are set. *)
Theorem returned_publications_complete env author_name start_year end_year
    filter_author_position out :
  fetch_author_publications env author_name start_year end_year filter_author_position
  = Returned out →
  Forall complete_publication out.
Proof. apply returned_complete. Qed.

(** X10: The link of every returned publication is the PubMed address of its
    own PMID. *)
Theorem link_follows_pmid env author_name start_year end_year
    filter_author_position out :
  fetch_author_publications env author_name start_year end_year filter_author_position
  = Returned out →
  Forall (λ pub, ∃ pmid,
            pub !! "PMID" = Some (VStr pmid)
            ∧ pub !! "PubMed_URL"
              = Some (VStr ("https://pubmed.ncbi.nlm.nih.gov/" +:+ pmid +:+ "/"))) out.
Proof.
  intros Hr. apply returned_from_normalizer in Hr.
  eapply Forall_impl; [exact Hr |].
  intros q (p & (pmid & ? & ? & ? & ? & ? & ? & ->) & Hs & _). exists pmid.
  rewrite (Hs "PMID"), (Hs "PubMed_URL"); [done | |];
    apply citation_field_not_normalizer; in_literal.
Qed.

Lemma fetch_batches_key_error env s filter_author_position k batches publications j batch :
  batches !! j = Some batch →
  efetch env (k + j) (join "," batch) = Fetched None →
  fetch_batches env s filter_author_position k batches publications
  = Raised (KeyError "PubmedArticle").
Proof.
  revert k publications j. induction batches as [|first rest IH];
    intros k publications j Hj Hnone; [done |]. simpl.
  destruct j as [|j]; simpl in Hj.
  - simplify_eq. rewrite Nat.add_0_r in Hnone. by rewrite Hnone.
  - replace (k + S j) with (S k + j) in Hnone by lia.
    destruct (efetch env k (join "," first)) as [e | [records|]]; [| | done];
      by apply (IH (S k) _ j).
Qed.

(** X11: A fetched response without its [PubmedArticle] key ends the whole call
    with a [KeyError], whatever the other batches returned: that read is
    outside both [try] blocks. *)
Theorem missing_article_list_aborts env author_name start_year end_year
    filter_author_position last_name rest ids j batch :
  split author_name = last_name :: rest →
  esearch env (search_term author_name start_year end_year) = Returned ids →
  chunks fetch_batch_size ids !! j = Some batch →
  efetch env j (join "," batch) = Fetched None →
  fetch_author_publications env author_name start_year end_year filter_author_position
  = Raised (KeyError "PubmedArticle").
Proof.
  intros Hs He Hj Hnone. unfold fetch_author_publications. rewrite Hs, He.
  destruct ids as [|id ids]; [done |].
  unfold collect_publications.
  by rewrite (fetch_batches_key_error _ _ _ 0 _ _ j batch Hj Hnone).
Qed.

Lemma split_from_blank s : blank s = true → split_from "" s = [].
Proof.
  induction s as [|c s IH]; simpl; [done |].
  intros [Hc Hs]%andb_true_iff. rewrite Hc. by apply IH.
Qed.

Lemma lstrip_blank s : blank s = true → lstrip s = "".
Proof.
  induction s as [|c s IH]; simpl; [done |].
  intros [Hc Hs]%andb_true_iff. rewrite Hc. by apply IH.
Qed.

(** X12: An author name of whitespace only, or none: the function raises
    [IndexError] before it contacts any service, and the web route redirects
    to the home page without calling it. *)
Theorem blank_author_name env now start_year end_year filter_author_position args :
  blank (default "" (args !! "author")) = true →
  fetch_author_publications env (default "" (args !! "author")) start_year end_year
    filter_author_position
  = Raised IndexError
  ∧ results env now args = RedirectHome.
Proof.
  intros Hb. split.
  - unfold fetch_author_publications, split. by rewrite (split_from_blank _ Hb).
  - unfold results, strip. by rewrite (lstrip_blank _ Hb).
Qed.

Lemma year_desc_same_keys sorted changed :
  Forall2 (λ p q, year_key q = year_key p) sorted changed →
  StronglySorted year_desc sorted → StronglySorted year_desc changed.
Proof.
  intros Hf. induction Hf as [|p q l k Hpq Hlk IH]; [done |].
  intros Hs. apply StronglySorted_inv in Hs as [Hs Hall].
  constructor; [by apply IH |]. clear IH Hs.
  induction Hlk as [|p' q' l k Hpq' Hlk IH]; [done |].
  apply Forall_cons_1 in Hall as [Hp' Hall]. constructor; [| by apply IH].
  unfold year_desc in *. by rewrite Hpq, Hpq'.
Qed.

Lemma rcr_imputed_not_written k :
  k ∈ (normalizer_fields ++ citation_fields)%list → k ∉ ["RCR_imputed"].
Proof.
  unfold normalizer_fields, citation_fields. simpl. intros Hk.
  repeat (apply elem_of_cons in Hk as [-> | Hk]);
    [.. | by apply elem_of_nil in Hk];
    rewrite !not_elem_of_cons; repeat split; try done; apply not_elem_of_nil.
Qed.

(** X13: What the results page is rendered from: the stripped author name, and
    a list ordered by year, newest first, in which every publication is
    complete and has its [RCR_imputed]. *)
Theorem results_page env now args pubs author :
  results env now args = RenderResults pubs author →
  author = strip (default "" (args !! "author"))
  ∧ author ≠ ""
  ∧ StronglySorted year_desc pubs
  ∧ Forall (λ pub, complete_publication pub ∧ is_Some (pub !! "RCR_imputed")) pubs.
Proof.
  unfold results. intros Hr.
  destruct (String.eqb (strip (default "" (args !! "author"))) "") eqn:Ha; [done |].
  apply String.eqb_neq in Ha.
  destruct (year_arg _) as [start | e]; [| done].
  destruct (year_arg _) as [stop | e]; [| done].
  destruct (fetch_author_publications _ _ _ _ _) as [out | e] eqn:Hf; [| done].
  injection Hr as <- <-. split_and!; [done | done | |].
  - pose proof (fetch_author_publications_returned _ _ _ _ _ _ Hf)
      as (collected & Hc & _ & _).
    apply fetch_citation_counts_frame in Hc.
    eapply year_desc_same_keys.
    + eapply Forall2_impl; [apply compute_imputed_metrics_frame |].
      intros p q Hs. unfold year_key, get_or. rewrite (Hs "Year"); [done |].
      apply rcr_imputed_not_written, elem_of_app. left. in_literal.
    + eapply year_desc_enriched; [exact Hc | apply sort_by_year_desc_sorted].
  - apply returned_complete in Hf.
    rewrite compute_imputed_metrics_fmap. apply Forall_fmap.
    eapply Forall_impl; [exact Hf |]. intros pub [Hn Hc]. simpl. split.
    + split.
      * intros k Hk. rewrite lookup_insert_ne; [by apply Hn |].
        intros <-. by apply (rcr_imputed_not_written "RCR_imputed");
          [apply elem_of_app; left | apply list_elem_of_here].
      * intros k Hk. rewrite lookup_insert_ne; [by apply Hc |].
        intros <-. by apply (rcr_imputed_not_written "RCR_imputed");
          [apply elem_of_app; right | apply list_elem_of_here].
    + rewrite lookup_insert_eq. by eexists.
Qed.

End MorePipeline.

Section Provenance.
Context `{PyNum}.
Implicit Types (pub : gmap string pyval) (publications : list (gmap string pyval)).
Implicit Types (rec : record) (env : services).

Lemma process_records_provenance s filter_author_position records pub :
  pub ∈ process_records s filter_author_position records →
  ∃ rec, rec ∈ records ∧ process_record s filter_author_position rec = Kept pub.
Proof.
  unfold process_records. intros Hin.
  apply list_elem_of_omap in Hin as (rec & Hrec & Hkept). exists rec. split; [done |].
  destruct (process_record s filter_author_position rec); by simplify_eq.
Qed.

Lemma fetch_batches_provenance env s filter_author_position k batches publications
    collected pub :
  fetch_batches env s filter_author_position k batches publications = Returned collected →
  pub ∈ collected →
  pub ∈ publications
  ∨ ∃ j batch records rec,
      batches !! j = Some batch
      ∧ efetch env (k + j) (join "," batch) = Fetched (Some records)
      ∧ rec ∈ records
      ∧ process_record s filter_author_position rec = Kept pub.
Proof.
  revert k publications. induction batches as [|batch rest IH];
    intros k publications Hf Hin; simpl in Hf.
  - simplify_eq. by left.
  - destruct (efetch env k (join "," batch)) as [e | [records|]] eqn:Hfetch; [| | done].
    + destruct (IH _ _ Hf Hin) as [Hacc | (j & b & records & rec & Hj & He & Hrec & Hk)];
        [by left |].
      right. exists (S j), b, records, rec. split_and!; try done.
      by replace (k + S j) with (S k + j) by lia.
    + destruct (IH _ _ Hf Hin) as [Hacc | (j & b & recs & rec & Hj & He & Hrec & Hk)].
      * apply elem_of_app in Hacc as [Hacc | Hnew]; [by left |].
        apply process_records_provenance in Hnew as (rec & Hrec & Hk).
        right. exists 0, batch, records, rec. split_and!; try done.
        by rewrite Nat.add_0_r.
      * right. exists (S j), b, recs, rec. split_and!; try done.
        by replace (k + S j) with (S k + j) by lia.
Qed.

(** X14: Nothing is invented: every returned publication is, up to its citation
    fields, the publication the loop body built from a record of a fetched
    batch. *)
Theorem every_result_has_a_record env author_name start_year end_year
    filter_author_position last_name rest ids out q :
  split author_name = last_name :: rest →
  esearch env (search_term author_name start_year end_year) = Returned ids →
  fetch_author_publications env author_name start_year end_year filter_author_position
  = Returned out →
  q ∈ out →
  ∃ j batch records rec pub,
    chunks fetch_batch_size ids !! j = Some batch
    ∧ efetch env j (join "," batch) = Fetched (Some records)
    ∧ rec ∈ records
    ∧ process_record (upper last_name) filter_author_position rec = Kept pub
    ∧ same_except citation_fields pub q.
Proof.
  intros Hs He Hr Hq. unfold fetch_author_publications in Hr. rewrite Hs, He in Hr.
  destruct ids as [|id ids]; [simplify_eq; by apply elem_of_nil in Hq |].
  destruct (collect_publications env _ _ (id :: ids)) as [collected | e] eqn:Hc;
    [| done].
  destruct (fetch_citation_counts _ _) as [enriched|] eqn:Hf; [| done].
  simplify_eq. apply fetch_citation_counts_frame in Hf.
  apply list_elem_of_lookup in Hq as [i Hi].
  destruct (Forall2_lookup_r _ _ _ _ _ Hf Hi) as (pub & Hpub & Hsame).
  assert (Hin : pub ∈ collected).
  { rewrite <- (sort_by_year_desc_perm collected). by eapply list_elem_of_lookup_2. }
  unfold collect_publications in Hc.
  destruct (fetch_batches_provenance _ _ _ _ _ _ _ _ Hc Hin)
    as [Hnil | (j & batch & records & rec & Hj & Hfetch & Hrec & Hk)];
    [by apply elem_of_nil in Hnil |].
  exists j, batch, records, rec, pub. by split_and!.
Qed.

End Provenance.

(** ** The results page *)

Section Strings.

Lemma append_cons c s t : String c s +:+ t = String c (s +:+ t).
Proof. reflexivity. Qed.

Lemma append_nil_l s : "" +:+ s = s.
Proof. reflexivity. Qed.

Lemma append_nil_r s : s +:+ "" = s.
Proof. induction s as [|c s IH]; [done | by rewrite append_cons, IH]. Qed.

Lemma append_assoc a b c : (a +:+ b) +:+ c = a +:+ (b +:+ c).
Proof. induction a as [|x a IH]; [done | by rewrite !append_cons, IH]. Qed.

(** The word carried into the split ends up in front of the first piece. *)
Lemma split_on_from_word sep word s :
  split_on_from sep word s
  = match split_on_from sep "" s with
    | piece :: pieces => (word +:+ piece) :: pieces
    | [] => []
    end.
Proof.
  revert word. induction s as [|c s IH]; intros word; cbn [split_on_from].
  - by rewrite append_nil_r.
  - destruct (Ascii.eqb c sep); [by rewrite append_nil_r |].
    rewrite (IH (word +:+ String c "")), (IH ("" +:+ String c "")).
    destruct (split_on_from sep "" s); [done |].
    by rewrite append_assoc.
Qed.

Lemma split_on_from_free sep word name s :
  has_char sep name = false →
  split_on_from sep word (name +:+ s) = split_on_from sep (word +:+ name) s.
Proof.
  revert word. induction name as [|c name IH]; intros word.
  - by rewrite append_nil_l, append_nil_r.
  - cbn [has_char]. intros [Hc Hn]%orb_false_iff.
    rewrite append_cons. cbn [split_on_from].
    rewrite Hc, (IH _ Hn). by rewrite append_assoc.
Qed.

Lemma strip_after_space s : strip (" " +:+ s) = strip s.
Proof. reflexivity. Qed.

Lemma author_tokens_join names :
  Forall tidy_name names → author_tokens (join ", " names) = names.
Proof.
  unfold author_tokens, split_on, join.
  induction 1 as [|name rest (Hne & Hstrip & Hfree) Hrest IH]; [done |].
  destruct rest as [|next rest].
  - change (String.concat ", " [name]) with name.
    rewrite <- (append_nil_r name) at 1.
    rewrite (split_on_from_free _ _ _ _ Hfree), append_nil_l.
    cbn [split_on_from]. rewrite fmap_cons, filter_cons, Hstrip.
    by rewrite decide_True.
  - change (String.concat ", " (name :: next :: rest))
      with (name +:+ ", " +:+ String.concat ", " (next :: rest)).
    rewrite (split_on_from_free _ _ _ _ Hfree), append_nil_l.
    change (", " +:+ String.concat ", " (next :: rest))
      with (String "," (String " " (String.concat ", " (next :: rest)))).
    cbn [split_on_from Ascii.eqb Bool.eqb]. rewrite append_nil_l.
    rewrite fmap_cons, filter_cons, Hstrip, decide_True by done. f_equal.
    rewrite split_on_from_word. rewrite <- IH at 2.
    destruct (split_on_from "," "" (String.concat ", " (next :: rest))); [done |].
    by rewrite !fmap_cons, strip_after_space.
Qed.

(** X15: The comma-separated [Authors] string gives back the names it was joined
    from, in order, when no name is empty, holds a comma, or starts or ends
    with whitespace; the page then shows one entry per name, the
    searched author's in bold. *)
Theorem authors_round_trip names author_name :
  Forall tidy_name names →
  author_tokens (join ", " names) = names
  ∧ highlight_authors (join ", " names) author_name
    = join ", " (highlight_token (name_last (split author_name))
                                 (name_initials (split author_name)) <$> names).
Proof.
  intros Hall. split; [by apply author_tokens_join |].
  unfold highlight_authors. by rewrite author_tokens_join.
Qed.

Lemma replace_char_free old new s :
  old ≠ new → has_char old (replace_char old new s) = false.
Proof.
  intros Hne. induction s as [|c s IH]; simpl; [done |]. rewrite IH, orb_false_r.
  destruct (Ascii.eqb c old) eqn:Hc; [| done]. apply Ascii.eqb_neq. congruence.
Qed.

Lemma remove_char_free old s : has_char old (remove_char old s) = false.
Proof.
  induction s as [|c s IH]; simpl; [done |].
  destruct (Ascii.eqb c old) eqn:Hc; [done |]. simpl. by rewrite Hc.
Qed.

Lemma remove_char_keeps_free c old s :
  has_char c s = false → has_char c (remove_char old s) = false.
Proof.
  induction s as [|c' s IH]; simpl; [done |].
  intros [Hc Hs]%orb_false_iff. destruct (Ascii.eqb c' old); [by apply IH |].
  simpl. by rewrite Hc, IH.
Qed.

Lemma replace_char_id old new s : has_char old s = false → replace_char old new s = s.
Proof.
  induction s as [|c s IH]; simpl; [done |].
  intros [Hc Hs]%orb_false_iff. by rewrite Hc, IH.
Qed.

Lemma remove_char_id old s : has_char old s = false → remove_char old s = s.
Proof.
  induction s as [|c s IH]; simpl; [done |].
  intros [Hc Hs]%orb_false_iff. by rewrite Hc, IH.
Qed.

(** X16: The author name as it enters a file name holds no space and no double
    quote, and a name without either is used as it is. *)
Theorem clean_name_safe author_name :
  has_char " " (clean_name author_name) = false
  ∧ has_char "034" (clean_name author_name) = false
  ∧ (has_char " " author_name = false → has_char "034" author_name = false →
     clean_name author_name = author_name).
Proof.
  unfold clean_name. split_and!.
  - by apply remove_char_keeps_free, replace_char_free.
  - apply remove_char_free.
  - intros Hs Hq. by rewrite (replace_char_id _ _ _ Hs), (remove_char_id _ _ Hq).
Qed.

End Strings.

Section PageTotals.
Context `{PyNum}.
Implicit Types (pub : gmap string pyval) (publications : list (gmap string pyval)).
Implicit Types (icite : icite_oracle) (env : services).

Lemma citation_count_of_countable pub :
  countable pub → citation_count_of pub = Some (count_of pub).
Proof.
  unfold countable, counts_under, countable_value, citation_count_of, count_of, get_or.
  destruct (pub !! "Citation_Count") as [v|]; simpl; [| done].
  intros [-> | [-> | [z ->]]]; simpl; [done | done |].
  destruct (z =? 0)%Z eqn:Hz; simpl; [| done]. by apply Z.eqb_eq in Hz as ->.
Qed.

Lemma total_citations_from (start : Z) publications :
  Forall countable publications →
  foldl (λ total pub, t ← total; c ← citation_count_of pub; Some (t + c)%Z)
        (Some start) publications
  = Some (start + foldr (λ pub t, count_of pub + t) 0 publications)%Z.
Proof.
  intros Hall. revert start.
  induction Hall as [|pub rest Hpub Hrest IH]; intros start; simpl.
  - f_equal. lia.
  - rewrite (citation_count_of_countable _ Hpub). simpl. rewrite IH. f_equal. lia.
Qed.

Lemma citation_map_of_countable items :
  Forall (counts_under "citation_count") items →
  map_Forall (λ _ cite, countable_value (citation_count cite)) (citation_map_of items).
Proof.
  unfold citation_map_of. intros Hall.
  assert (Hgen : ∀ m : gmap string cite_data,
             map_Forall (λ _ cite, countable_value (citation_count cite)) m →
             map_Forall (λ _ cite, countable_value (citation_count cite))
               (foldl (λ m item, <[py_str (get_or item "pmid" (VStr "")) := cite_data_of item]> m)
                      m items)).
  { induction Hall as [|item rest Hitem Hrest IH]; intros m Hm; simpl; [done |].
    apply IH. apply map_Forall_insert_2; [| done].
    unfold counts_under in Hitem. unfold cite_data_of, get_or. simpl.
    destruct (item !! "citation_count"); simpl; [done |]. by right; right; exists 0%Z. }
  apply Hgen, map_Forall_empty.
Qed.

Lemma set_citation_countable cc rcr fcr pub :
  countable_value cc → countable (set_citation cc rcr fcr pub).
Proof.
  intros Hcc. unfold countable, counts_under, set_citation.
  rewrite (lookup_insert_ne _ "Field_Citation_Rate") by done.
  rewrite (lookup_insert_ne _ "RCR") by done.
  by rewrite lookup_insert_eq.
Qed.

Lemma apply_citation_map_countable citation_map pub :
  map_Forall (λ _ cite, countable_value (citation_count cite)) citation_map →
  countable pub → countable (apply_citation_map citation_map pub).
Proof.
  intros Hm Hpub. unfold apply_citation_map, set_empty_citation.
  destruct (pub_pmid pub) as [pmid|]; [| done].
  destruct (citation_map !! pmid) as [cite|] eqn:Hc.
  - apply set_citation_countable. by apply (Hm pmid cite).
  - apply set_citation_countable. by right; left.
Qed.

Lemma add_empty_if_missing_countable pub :
  countable pub → countable (add_empty_if_missing pub).
Proof.
  intros Hpub. unfold add_empty_if_missing, set_empty_citation.
  case_match; [done |]. apply set_citation_countable. by right; left.
Qed.

Lemma enrich_batches_countable icite k batches publications :
  (∀ j s items, icite j s = LookupOk items →
                Forall (counts_under "citation_count") items) →
  Forall countable publications →
  Forall countable (enrich_batches icite k batches publications).
Proof.
  intros Hitems. revert k publications.
  induction batches as [|batch rest IH]; intros k publications Hall; [done |].
  simpl. apply IH. unfold enrich_batch.
  destruct (icite k (join "," batch)) as [items | |] eqn:Hi;
    apply Forall_fmap; (eapply Forall_impl; [exact Hall |]); intros pub Hpub; simpl;
    auto using add_empty_if_missing_countable.
  apply apply_citation_map_countable; [| done].
  apply citation_map_of_countable. by eapply Hitems.
Qed.

Lemma built_by_normalizer_countable pub : built_by_normalizer pub → countable pub.
Proof. by intros (? & ? & ? & ? & ? & ? & ? & ->). Qed.

Lemma total_citations_imputed now publications :
  total_citations (compute_imputed_metrics now publications)
  = total_citations publications.
Proof.
  unfold total_citations. generalize (Some 0%Z).
  induction publications as [|pub rest IH]; intros total; [done |].
  cbn [compute_imputed_metrics foldl]. rewrite IH. do 2 f_equal.
  unfold citation_count_of, get_or. by rewrite lookup_insert_ne.
Qed.

(** X17: The total of the page, taken after the imputation loop, is defined on
    what the pipeline returns, and is the sum of the integer counts, when
    every count iCite sent is an integer, null or missing: [int] then never
    raises. *)
Theorem page_total_is_defined env now author_name start_year end_year
    filter_author_position out :
  (∀ k s items, icite env k s = LookupOk items →
                Forall (counts_under "citation_count") items) →
  fetch_author_publications env author_name start_year end_year filter_author_position
  = Returned out →
  total_citations (compute_imputed_metrics now out)
  = Some (foldr (λ pub t, count_of pub + t) 0 out)%Z.
Proof.
  intros Hitems Hr. rewrite total_citations_imputed.
  apply fetch_author_publications_returned in Hr as (collected & Hf & Heq & _).
  assert (Hc : Forall countable (sort_by_year_desc collected)).
  { rewrite sort_by_year_desc_perm, Heq.
    eapply Forall_impl; [apply collected_publications_built |].
    apply built_by_normalizer_countable. }
  unfold fetch_citation_counts in Hf.
  destruct (mapM pub_pmid (sort_by_year_desc collected)) as [pmids|]; simplify_eq/=.
  unfold total_citations. rewrite total_citations_from; [done |].
  by apply enrich_batches_countable.
Qed.

Lemma rcr_imputed_unenriched now pmid title authors journal year doi abstract :
  rcr_imputed now
    (set_empty_citation (pub_info pmid title authors journal year doi abstract))
  = VInt 0.
Proof.
  unfold rcr_imputed, get, get_or, set_empty_citation, set_citation.
  rewrite !(lookup_insert_ne _ "Field_Citation_Rate") by done.
  rewrite !lookup_insert_eq.
  rewrite (lookup_insert_ne _ "RCR" "Citation_Count") by done.
  rewrite lookup_insert_eq. simpl. by rewrite andb_false_r.
Qed.

(** What a rendered page holds when no lookup succeeded. *)
Lemma rendered_without_icite env now args pubs author :
  (∀ k s items, icite env k s ≠ LookupOk items) →
  results env now args = RenderResults pubs author →
  Forall (λ pub, ∃ built, built_by_normalizer built
                          ∧ pub = <["RCR_imputed" := VInt 0]> (set_empty_citation built))
         pubs.
Proof.
  intros Hdown Hr. unfold results in Hr.
  destruct (String.eqb _ "") in Hr; [done |].
  destruct (year_arg _) as [start | e] in Hr; [| done].
  destruct (year_arg _) as [stop | e] in Hr; [| done].
  destruct (fetch_author_publications _ _ _ _ _) as [out | e] eqn:Hf; [| done].
  injection Hr as <- <-.
  apply fetch_author_publications_returned in Hf as (collected & Hf & Heq & Hen).
  assert (Hb : Forall built_by_normalizer (sort_by_year_desc collected)).
  { rewrite sort_by_year_desc_perm, Heq. apply collected_publications_built. }
  rewrite lookups_fail_gives_empty in Hf; [| | done].
  - injection Hf as <-. rewrite compute_imputed_metrics_fmap, <- list_fmap_compose.
    apply Forall_fmap. eapply Forall_impl; [exact Hb |].
    intros pub (pmid & title & authors & journal & year & doi & abstract & ->).
    exists (pub_info pmid title authors journal year doi abstract).
    split; [by repeat eexists |]. simpl.
    change (add_empty_if_missing (pub_info pmid title authors journal year doi abstract))
      with (set_empty_citation (pub_info pmid title authors journal year doi abstract)).
    by rewrite rcr_imputed_unenriched.
  - eapply Forall_impl; [exact Hb |].
    by intros pub (pmid & ? & ? & ? & ? & ? & ? & ->); exists pmid.
Qed.

(** The call returns whenever the search does and every fetched response
    has its article list, whatever the fetches and the lookups did. *)
Lemma fetch_author_publications_returns env author_name start_year end_year
    filter_author_position last_name rest ids :
  split author_name = last_name :: rest →
  esearch env (search_term author_name start_year end_year) = Returned ids →
  (∀ j b, chunks fetch_batch_size ids !! j = Some b →
          efetch env j (join "," b) ≠ Fetched None) →
  ∃ out, fetch_author_publications env author_name start_year end_year
           filter_author_position = Returned out.
Proof.
  intros Hs He Hkey. unfold fetch_author_publications. rewrite Hs, He.
  destruct ids as [|id ids]; [by eexists |].
  pose proof (fetch_batches_returned env (upper last_name) filter_author_position 0
                (chunks fetch_batch_size (id :: ids)) [] Hkey) as Hfb.
  unfold collect_publications. rewrite Hfb.
  pose proof (fetch_batches_enrichable _ _ _ _ _ [] _ ltac:(constructor) Hfb) as Hen.
  match goal with
  | |- context [fetch_citation_counts ?lookup ?sorted] =>
      destruct (proj2 (fetch_citation_counts_returns lookup sorted)) as [enriched Hf]
  end.
  - rewrite sort_by_year_desc_perm. eapply Forall_impl; [exact Hen |].
    by intros pub [? _].
  - rewrite Hf. by eexists.
Qed.

(** X18: With iCite down the results page still renders, whenever the
    search succeeds and every fetched response has its article list; and
    every publication on it is what the normalizer built, with the three
    citation fields empty and an [RCR_imputed] of 0. *)
Theorem page_without_icite env now args start stop ids :
  strip (default "" (args !! "author")) ≠ "" →
  year_arg (strip (default "" (args !! "start_year"))) = Returned start →
  year_arg (strip (default "" (args !! "end_year"))) = Returned stop →
  esearch env (search_term (strip (default "" (args !! "author"))) start stop)
  = Returned ids →
  (∀ j b, chunks fetch_batch_size ids !! j = Some b →
          efetch env j (join "," b) ≠ Fetched None) →
  (∀ k s items, icite env k s ≠ LookupOk items) →
  ∃ pubs,
    results env now args = RenderResults pubs (strip (default "" (args !! "author")))
    ∧ Forall (λ pub, ∃ built, built_by_normalizer built
                              ∧ pub = <["RCR_imputed" := VInt 0]>
                                        (set_empty_citation built))
             pubs.
Proof.
  intros Ha Hstart Hstop He Hkey Hdown.
  destruct (split_strip_nonempty _ Ha) as (last_name & rest & Hs).
  destruct (fetch_author_publications_returns env _ start stop
              (String.eqb (default "1" (args !! "filter_position")) "1")
              last_name rest ids Hs He Hkey) as [out Hout].
  assert (Hr : results env now args
               = RenderResults (compute_imputed_metrics now out)
                   (strip (default "" (args !! "author")))).
  { unfold results. rewrite (proj2 (String.eqb_neq _ _) Ha), Hstart, Hstop.
    by rewrite Hout. }
  eexists. split; [exact Hr |]. by eapply rendered_without_icite.
Qed.

(** X19: A start year that is not a number gives the error page, and no search
    is made. *)
Theorem invalid_start_year_gives_error_page env now args :
  strip (default "" (args !! "author")) ≠ "" →
  strip (default "" (args !! "start_year")) ≠ "" →
  int_of_str (strip (default "" (args !! "start_year"))) = None →
  results env now args
  = RenderError (ValueError (strip (default "" (args !! "start_year")))).
Proof.
  intros Ha Hy Hint. unfold results, year_arg.
  rewrite (proj2 (String.eqb_neq _ _) Ha), (proj2 (String.eqb_neq _ _) Hy).
  by rewrite Hint.
Qed.

End PageTotals.

Section LetterCase.

Lemma is_space_upper_char c : is_space (upper_char c) = is_space c.
Proof. by destruct c as [[] [] [] [] [] [] [] []]. Qed.

Lemma lower_upper_char c : lower_char (upper_char c) = lower_char c.
Proof. by destruct c as [[] [] [] [] [] [] [] []]. Qed.

Lemma lower_upper s : lower (upper s) = lower s.
Proof.
  induction s as [|c s IH]; [done |]. cbn [upper lower].
  by rewrite lower_upper_char, IH.
Qed.

Lemma upper_app a b : upper (a +:+ b) = upper a +:+ upper b.
Proof.
  induction a as [|c a IH]; [done |].
  rewrite append_cons. cbn [upper]. by rewrite append_cons, IH.
Qed.

Lemma split_from_upper word s :
  split_from (upper word) (upper s) = upper <$> split_from word s.
Proof.
  revert word. induction s as [|c s IH]; intros word; cbn [upper split_from].
  - by destruct word.
  - rewrite is_space_upper_char. destruct (is_space c).
    + destruct word; cbn [upper]; [apply (IH "") |].
      rewrite fmap_cons. f_equal. apply (IH "").
    + rewrite <- IH, upper_app. done.
Qed.

Lemma join_upper parts : upper (join "" parts) = join "" (upper <$> parts).
Proof.
  unfold join. induction parts as [|part rest IH]; [done |].
  destruct rest as [|next rest]; [done |].
  change (String.concat "" (part :: next :: rest))
    with (part +:+ "" +:+ String.concat "" (next :: rest)).
  rewrite !upper_app, IH. done.
Qed.

Lemma name_last_upper parts : name_last (upper <$> parts) = name_last parts.
Proof. destruct parts as [|part rest]; [done |]. apply lower_upper. Qed.

Lemma name_initials_upper parts : name_initials (upper <$> parts) = name_initials parts.
Proof.
  unfold name_initials. rewrite length_fmap.
  destruct (1 <? length parts)%nat; [| done].
  destruct parts as [|part rest]; [done |]. cbn [fmap list_fmap tail].
  by rewrite <- join_upper, lower_upper.
Qed.

Lemma highlight_authors_upper authors_str author_name :
  highlight_authors authors_str (upper author_name)
  = highlight_authors authors_str author_name.
Proof.
  unfold highlight_authors, split.
  pose proof (split_from_upper "" author_name) as Hs. cbn [upper] in Hs.
  by rewrite Hs, name_last_upper, name_initials_upper.
Qed.

(** X20: The bold marking ignores the letter case of the searched name: two
    spellings that differ in case only mark the same entries. *)
Theorem highlighting_ignores_case authors_str author_name spelling :
  upper spelling = upper author_name →
  highlight_authors authors_str spelling = highlight_authors authors_str author_name.
Proof.
  intros Hsame.
  rewrite <- (highlight_authors_upper authors_str spelling), Hsame.
  apply highlight_authors_upper.
Qed.

End LetterCase.

(** Runs of the further properties on the concrete inputs. *)
Section MoreRuns.
#[local] Existing Instance Double.num.

Lemma last_lookup_decides_witness :
  fetch_citation_counts Example.icite_up Example.thousand_and_one
  = Some (apply_citation_map (citation_map_of [Example.icite_item 1001])
            <$> Example.thousand_and_one).
Proof.
  apply (last_lookup_decides Example.icite_up Example.thousand_and_one
           (pretty <$> seq 1 1001) [pretty <$> seq 1 1000] [pretty 1001%nat]);
    reflexivity.
Defined.

Lemma all_lookups_fail_witness :
  fetch_citation_counts Example.icite_down
    [Example.publication "1" "2020"; Example.count_only]
  = Some [set_empty_citation (Example.publication "1" "2020"); Example.count_only].
Proof.
  apply (all_lookups_fail Example.icite_down
           [Example.publication "1" "2020"; Example.count_only]).
  - repeat constructor; by eexists.
  - done.
Defined.

Lemma single_lookup_witness :
  fetch_citation_counts Example.icite_up
    [Example.publication "1" "2020"; Example.publication "2" "2019"]
  = Some (enrich_batch Example.icite_up 0 ["1"; "2"]
            [Example.publication "1" "2020"; Example.publication "2" "2019"]).
Proof. apply single_lookup; [discriminate | simpl; lia | reflexivity]. Defined.

Lemma position_filter_only_drops_witness :
  ∃ all,
    collect_publications Example.one_batch (upper "Knowles") false ["1"; "2"]
    = Returned all
    ∧ sublist [Example.publication "1" "2019"] all.
Proof.
  apply (position_filter_only_drops Example.one_batch (upper "Knowles") ["1"; "2"]).
  reflexivity.
Defined.

Lemma doi_is_first_listed_witness :
  extract_doi [Example.identifier "pubmed" "31"] = ""
  ∧ extract_doi [Example.identifier "pubmed" "31"; Example.identifier "doi" "10.1000/a";
                 Example.identifier "doi" "10.1000/b"]
    = "10.1000/a".
Proof.
  destruct (doi_is_first_listed [Example.identifier "pubmed" "31"]) as [Hnone Hfirst].
  - repeat constructor. discriminate.
  - split; [exact Hnone |].
    exact (Hfirst (Example.identifier "doi" "10.1000/a")
             [Example.identifier "doi" "10.1000/b"] eq_refl).
Defined.

Lemma returned_publications_complete_witness :
  Forall complete_publication Example.two_results.
Proof.
  apply (returned_publications_complete Example.second_fetch_fails "Knowles DA"
           None None true).
  reflexivity.
Defined.

Lemma link_follows_pmid_witness :
  Forall (λ pub, ∃ pmid,
            pub !! "PMID" = Some (VStr pmid)
            ∧ pub !! "PubMed_URL"
              = Some (VStr ("https://pubmed.ncbi.nlm.nih.gov/" +:+ pmid +:+ "/")))
    Example.two_results.
Proof.
  apply (link_follows_pmid Example.second_fetch_fails "Knowles DA" None None true).
  reflexivity.
Defined.

Lemma missing_article_list_aborts_witness :
  fetch_author_publications Example.second_response_malformed "Knowles DA"
    None None true
  = Raised (KeyError "PubmedArticle").
Proof.
  apply (missing_article_list_aborts Example.second_response_malformed "Knowles DA"
           None None true "Knowles" ["DA"] (pretty <$> seq 1 101) 1 [pretty 101%nat]);
    reflexivity.
Defined.

Lemma blank_author_name_witness :
  fetch_author_publications Example.search_fails "  " None None true = Raised IndexError
  ∧ results Example.search_fails 2025 Example.blank_query = RedirectHome.
Proof.
  apply (blank_author_name Example.search_fails 2025 None None true Example.blank_query).
  reflexivity.
Defined.

Lemma results_page_witness :
  "Knowles DA" = strip (default "" (Example.knowles_query !! "author"))
  ∧ "Knowles DA" ≠ ""
  ∧ StronglySorted year_desc (compute_imputed_metrics 2025 Example.two_results)
  ∧ Forall (λ pub, complete_publication pub ∧ is_Some (pub !! "RCR_imputed"))
      (compute_imputed_metrics 2025 Example.two_results).
Proof.
  apply (results_page Example.second_fetch_fails 2025 Example.knowles_query).
  reflexivity.
Defined.

Lemma page_without_icite_witness :
  ∃ pubs,
    results Example.second_fetch_fails 2025 Example.knowles_query
    = RenderResults pubs (strip (default "" (Example.knowles_query !! "author")))
    ∧ Forall (λ pub, ∃ built, built_by_normalizer built
                              ∧ pub = <["RCR_imputed" := VInt 0]>
                                        (set_empty_citation built))
             pubs.
Proof.
  apply (page_without_icite Example.second_fetch_fails 2025 Example.knowles_query
           None None (pretty <$> seq 1 101)).
  - discriminate.
  - reflexivity.
  - reflexivity.
  - reflexivity.
  - intros j b _. simpl. destruct j; discriminate.
  - done.
Defined.

Lemma icite_up_counts k s items :
  Example.icite_up k s = LookupOk items →
  Forall (counts_under "citation_count") items.
Proof.
  intros Hup. injection Hup as <-. apply Forall_forall. intros item Hin.
  apply list_elem_of_omap in Hin as (pmid & _ & Hitem).
  destruct (Double.parse_int pmid) as [z|]; [| done]. injection Hitem as <-.
  unfold counts_under, Example.icite_item.
  rewrite lookup_insert_ne, lookup_insert_eq by done. right. right. by exists 7%Z.
Qed.

Lemma page_total_is_defined_witness :
  total_citations (compute_imputed_metrics 2025 Example.both_enriched) = Some 14%Z.
Proof.
  apply (page_total_is_defined Example.one_batch 2025 "Knowles DA" None None false).
  - apply icite_up_counts.
  - reflexivity.
Defined.

Lemma authors_round_trip_witness :
  author_tokens "Adams A, Knowles DA, Clark C" = Example.three_names
  ∧ highlight_authors "Adams A, Knowles DA, Clark C" "knowles d"
    = "Adams A, <strong>Knowles DA</strong>, Clark C".
Proof.
  apply (authors_round_trip Example.three_names "knowles d").
  repeat constructor; discriminate.
Defined.

Lemma highlighting_ignores_case_witness :
  highlight_authors "Adams A, Knowles DA" "knowles da"
  = highlight_authors "Adams A, Knowles DA" "Knowles DA".
Proof. apply highlighting_ignores_case. reflexivity. Defined.

Lemma invalid_start_year_gives_error_page_witness :
  results Example.search_fails 2025 Example.bad_year_query
  = RenderError (ValueError "20x0").
Proof.
  apply (invalid_start_year_gives_error_page Example.search_fails 2025
           Example.bad_year_query); [discriminate | discriminate | reflexivity].
Defined.

Lemma every_result_has_a_record_witness :
  ∃ j batch records rec pub,
    chunks fetch_batch_size (pretty <$> seq 1 101) !! j = Some batch
    ∧ efetch Example.second_fetch_fails j (join "," batch) = Fetched (Some records)
    ∧ rec ∈ records
    ∧ process_record (upper "Knowles") true rec = Kept pub
    ∧ same_except citation_fields pub (set_empty_citation (Example.publication "2" "2020")).
Proof.
  apply (every_result_has_a_record Example.second_fetch_fails "Knowles DA" None None true
           "Knowles" ["DA"] (pretty <$> seq 1 101) Example.two_results).
  - reflexivity.
  - reflexivity.
  - reflexivity.
  - apply list_elem_of_here.
Defined.

Lemma record_kept_iff_witness :
  (∃ pub, process_record (upper "Knowles") true
            (Example.raw_record "2" Example.year_2020 Example.five_named_authors)
          = Kept pub)
  ↔ well_formed (Example.raw_record "2" Example.year_2020 Example.five_named_authors)
    ∧ (true = true →
       in_first_or_last_two (upper "Knowles")
         (record_authors
            (Example.raw_record "2" Example.year_2020 Example.five_named_authors))).
Proof.
  apply (record_kept_iff (upper "Knowles") true
           (Example.raw_record "2" Example.year_2020 Example.five_named_authors)).
  repeat constructor; by eexists.
Defined.

End MoreRuns.
